(** * Verification of the DBIR evaluation driver

    A shallow embedding of [pytorch3d/implicitron/eval_demo.py] and of the
    snapshot test [tests/implicitron/test_data_source.py].

    The driver is orchestration over opaque libraries (torch, lpips, the
    Implicitron dataset and evaluation modules).  Those libraries are
    collected in the class [Externals]; the driver itself is written in a
    small monad that threads the state of torch's global random generator,
    records every library call in a trace and propagates Python exceptions. *)

From Stdlib Require Import ZArith QArith List String Lia.
From stdpp Require Import base option list strings gmap pretty.
Import ListNotations.

Local Open Scope string_scope.
Local Open Scope Z_scope.
Local Open Scope list_scope.

(** ** Python values shared by the two files *)

(** The exceptions the two files can raise themselves: the explicit
    [raise ValueError(..)], subscripting a dict or [os.environ] with a missing
    key, subscripting a list or a camera batch out of range, unpacking a
    sequence of the wrong length (a [ValueError] in Python), reading a
    missing file and a failed [assertEqual]. *)
Inductive exn : Type :=
| ValueError (msg : string)
| KeyError (key : string)
| IndexError (msg : string)
| FileNotFoundError (path : string)
| AssertionError (first second : string).

Inductive result (A : Type) : Type :=
| Ok (a : A)
| Raise (e : exn).
Arguments Ok {A} a.
Arguments Raise {A} e.

Definition is_Ok {A} (r : result A) : bool :=
  match r with Ok _ => true | Raise _ => false end.

(** [Task] is the enum of [dataset/data_source.py]. *)
Inductive Task : Type := SINGLE_SEQUENCE | MULTI_SEQUENCE.

#[global] Instance Task_eq_dec : EqDecision Task.
Proof. solve_decision. Defined.

(** [str(task)], as the f-strings of [main] print it. *)
Definition Task_str (task : Task) : string :=
  match task with
  | SINGLE_SEQUENCE => "Task.SINGLE_SEQUENCE"
  | MULTI_SEQUENCE => "Task.MULTI_SEQUENCE"
  end.

Inductive Device : Type := CPU | CUDA.

(** A background colour [Tuple[float, float, float]].  The driver only
    passes colours along, so the components are kept as rationals. *)
Definition color : Type := Q * Q * Q.

(** ** The libraries the driver calls *)

Class Externals : Type := {
  (** state of torch's global random generator, and the state
      [torch.manual_seed(seed)] puts it in *)
  Rng : Type;
  manual_seed : Z -> Rng;
  (** [os.environ] *)
  environ : gmap string string;
  (** opaque data *)
  PathManager : Type;
  Camera : Type;
  Tensors : Type;
  Render : Type;
  EvalResult : Type;
  FlatResult : Type;
  Metrics : Type;
  (** [Task.value] *)
  Task_value : Task -> string;
  (** [CO3D_CATEGORIES] of [json_index_dataset_map_provider.py] *)
  CO3D_CATEGORIES : list string;
  (** [is_known_frame_scalar] of [dataset/utils.py] *)
  is_known_frame_scalar : string -> bool;
}.

Section Data.
Context `{Externals}.

(** The keyword dictionary handed to [JsonIndexDatasetMapProvider]. *)
Record dataset_map_provider_args : Type := {
  category : string;
  dataset_root : string;
  assert_single_seq : bool;
  task_str : string;
  test_on_train : bool;
  load_point_clouds : bool;
  test_restrict_sequence_id : Z;
  path_manager : option PathManager;
}.

Record FrameAnnotation : Type := { sequence_name : string }.

Record FrameAnnotsEntry : Type := {
  subset : option string;
  frame_annotation : FrameAnnotation;
}.

(** One item [dataset[i]]: an unbatched [FrameData]. *)
Record Frame : Type := {
  item_frame_type : string;
  item_camera : Camera;
  item_tensors : Tensors;
}.

(** A collated [FrameData]: one frame type and one camera per frame. *)
Record FrameData : Type := {
  frame_type : list string;
  camera : list Camera;
  tensors : Tensors;
}.

Record ImplicitronDataset : Type := {
  frame_annots : list FrameAnnotsEntry;
  image_width : option Z;
  sequence_indices_in_order : string -> list nat;
  getitem : nat -> Frame;
}.

(** The [DatasetMap] and [Dataloaders] of [get_datasets_and_dataloaders];
    a test dataloader is the finite sequence of batches it yields. *)
Record DatasetMap : Type := {
  ds_train : option ImplicitronDataset;
  ds_val : option ImplicitronDataset;
  ds_test : option ImplicitronDataset;
}.

Record Dataloaders : Type := {
  dl_train : option (list FrameData);
  dl_val : option (list FrameData);
  dl_test : option (list FrameData);
}.

Record ModelDBIR : Type := {
  render_image_width : Z;
  render_image_height : Z;
  bg_color : color;
  max_points : Z;
  model_device : Device;
}.

Record LPIPS : Type := {
  net : string;
  lpips_device : Device;
}.

(** The library calls of the two functions, as they appear in a run. *)
Inductive event : Type :=
| torch_manual_seed (seed : Z)
| new_ImplicitronDataSource (args : dataset_map_provider_args)
| call_get_datasets_and_dataloaders (args : dataset_map_provider_args)
| new_DataLoader (dataset : list Frame) (shuffle : bool) (batch_size : nat)
    (num_workers : Z)
| new_ModelDBIR (model : ModelDBIR)
| ModelDBIR_cuda (model : ModelDBIR)
| new_LPIPS (net : string)
| LPIPS_cuda (lpips_model : LPIPS)
| print (text : string)
| call_dataclass_to_cuda_ (frame_data : FrameData)
| call_model (model : ModelDBIR) (frame_data : FrameData)
| call_eval_batch (frame_data : FrameData) (render : Render) (bg : color)
    (lpips_model : LPIPS) (source_cameras : option (list Camera))
| call_summarize_nvs_eval_results (per_batch : list EvalResult) (task : Task)
| call_aggregate_nvs_results (task_results : list Metrics)
| call_pretty_print_nvs_metrics (results : Metrics).
End Data.

(** The library functions over these data.  A function that may consume
    randomness takes the generator state and returns the new one. *)
Class Library `{Externals} : Type := {
  (** [ImplicitronDataSource(..).get_datasets_and_dataloaders()] *)
  get_datasets_and_dataloaders :
    dataset_map_provider_args -> Rng -> DatasetMap * Dataloaders * Rng;
  (** the batches [torch.utils.data.DataLoader(dataset, shuffle, batch_size,
      num_workers, collate_fn=FrameData.collate)] yields *)
  DataLoader : list Frame -> bool -> nat -> Z -> Rng -> list FrameData * Rng;
  dataclass_to_cuda_ : FrameData -> FrameData;
  (** calling the model on the fields of [frame_data] *)
  ModelDBIR_forward : ModelDBIR -> FrameData -> Rng -> gmap string Render * Rng;
  eval_batch :
    FrameData -> Render -> color -> LPIPS -> option (list Camera) -> Rng ->
    EvalResult * Rng;
  summarize_nvs_eval_results :
    list EvalResult -> Task -> FlatResult * gmap string Metrics;
  aggregate_nvs_results : list Metrics -> Metrics;
}.

(** ** The monad of the driver *)

Section Monad.
Context `{Externals}.

(** What a run leaves behind: the value returned or the exception raised,
    the generator state, and the library calls made, oldest first. *)
Record Run (A : Type) : Type := {
  value : result A;
  rng_after : Rng;
  trace : list event;
}.
Global Arguments value {A} _.
Global Arguments rng_after {A} _.
Global Arguments trace {A} _.
Global Arguments Build_Run {A} _ _ _.

Definition M (A : Type) : Type := Rng -> Run A.

Global Instance M_ret : MRet M := λ A a r,
  {| value := Ok a; rng_after := r; trace := [] |}.

Global Instance M_bind : MBind M := λ A B k m r,
  let run := m r in
  match value run with
  | Ok a =>
      let run' := k a (rng_after run) in
      {| value := value run';
         rng_after := rng_after run';
         trace := trace run ++ trace run' |}
  | Raise e =>
      {| value := Raise e; rng_after := rng_after run; trace := trace run |}
  end.

Definition raise {A} (e : exn) : M A := λ r,
  {| value := Raise e; rng_after := r; trace := [] |}.

(** A library call that leaves the generator alone. *)
Definition call {A} (ev : event) (a : A) : M A := λ r,
  {| value := Ok a; rng_after := r; trace := [ev] |}.

(** A library call that may draw from the generator. *)
Definition call_random {A} (ev : event) (f : Rng -> A * Rng) : M A := λ r,
  {| value := Ok (f r).1; rng_after := (f r).2; trace := [ev] |}.

(** [torch.manual_seed(seed)] *)
Definition seed_generator (seed : Z) : M unit := λ _,
  {| value := Ok tt; rng_after := manual_seed seed;
     trace := [torch_manual_seed seed] |}.

(** [for x in xs: state = body(x, state)] *)
Fixpoint for_in {A S} (xs : list A) (body : A -> S -> M S) (s : S) : M S :=
  match xs with
  | [] => mret s
  | x :: xs' => s' ← body x s; for_in xs' body s'
  end.

(** [d[key]] on a dict with string keys. *)
Definition dict_getitem {V} (d : gmap string V) (key : string) : M V :=
  match d !! key with
  | Some v => mret v
  | None => raise (KeyError key)
  end.

(** [l[i]] on a list. *)
Definition list_getitem {V} (l : list V) (i : nat) : M V :=
  match l !! i with
  | Some v => mret v
  | None => raise (IndexError "list index out of range")
  end.

(** [(x,) = xs]: unpacking a sequence into one target. *)
Definition unpack_single {V} (xs : list V) : M V :=
  match xs with
  | [x] => mret x
  | [] => raise (ValueError "not enough values to unpack (expected 1, got 0)")
  | _ => raise (ValueError "too many values to unpack (expected 1)")
  end.
End Monad.


(** ** Tensors and ordered dictionaries *)

Section Containers.
Context `{Externals}.

(** [torch.where(mask)[0]]: the positions of the true entries, ascending. *)
Fixpoint where_from (i : nat) (mask : list bool) : list nat :=
  match mask with
  | [] => []
  | b :: mask' => (if b then [i] else []) ++ where_from (S i) mask'
  end.

Definition torch_where (mask : list bool) : list nat := where_from 0 mask.

(** Modelled from the spec: [is_known_frame] of [dataset/utils.py], a
    module that is not embedded here; it answers for each frame type of a
    batch whether the frame is a known one. *)
Definition is_known_frame (frame_types : list string) : list bool :=
  map is_known_frame_scalar frame_types.

(** [cameras[index]] for an index tensor: the cameras at these positions. *)
Definition cameras_getitem (cameras : list Camera) (index : list nat)
  : M (list Camera) :=
  match mapM (λ i, cameras !! i) index with
  | Some selected => mret selected
  | None => raise (IndexError "camera index out of bounds")
  end.

(** [torch.utils.data.Subset(dataset, indices)] *)
Definition Subset (dataset : ImplicitronDataset) (indices : list nat)
  : list Frame :=
  map (getitem dataset) indices.

(** A Python dict keyed by [Task]; it remembers the order of insertion. *)
Definition odict (V : Type) : Type := list (Task * V).

Fixpoint odict_lookup {V} (d : odict V) (key : Task) : option V :=
  match d with
  | [] => None
  | (k, v) :: d' => if decide (k = key) then Some v else odict_lookup d' key
  end.

(** [d[key] = v]: replaces the value of a present key where it stands, puts
    a new key last. *)
Fixpoint odict_setitem {V} (d : odict V) (key : Task) (v : V) : odict V :=
  match d with
  | [] => [(key, v)]
  | (k, v') :: d' =>
      if decide (k = key) then (k, v) :: d' else (k, v') :: odict_setitem d' key v
  end.

Definition odict_keys {V} (d : odict V) : list Task := map fst d.

Definition odict_getitem {V} (d : odict V) (key : Task) : M V :=
  match odict_lookup d key with
  | Some v => mret v
  | None => raise (KeyError (Task_str key))
  end.
End Containers.

(** ** eval_demo.py *)

Section EvalDemo.
Context `{Library}.

(** The defaults of [evaluate_dbir_for_category]. *)
Definition default_bg_color : color := (0%Q, 0%Q, 0%Q).
Definition default_num_workers : Z := 16.

Definition _get_all_source_cameras (dataset : ImplicitronDataset)
    (sequence_name : string) (num_workers : Z) : M (list Camera) :=
  let seq_idx := sequence_indices_in_order dataset sequence_name in
  let dataset_for_loader := Subset dataset seq_idx in
  batches ← call_random
    (new_DataLoader dataset_for_loader false (length dataset_for_loader)
       num_workers)
    (DataLoader dataset_for_loader false (length dataset_for_loader)
       num_workers);
  all_frame_data ← unpack_single batches;
  let is_known := is_known_frame (frame_type all_frame_data) in
  cameras_getitem (camera all_frame_data) (torch_where is_known).

(** The statement [if task == Task.SINGLE_SEQUENCE: .. else: ..] of
    [evaluate_dbir_for_category], which binds [all_source_cameras]. *)
Definition source_cameras_for (task : Task) (test_dataset : ImplicitronDataset)
    (num_workers : Z) : M (option (list Camera)) :=
  match task with
  | SINGLE_SEQUENCE =>
      first_entry ← list_getitem (frame_annots test_dataset) 0;
      let sequence_name := sequence_name (frame_annotation first_entry) in
      all_source_cameras ← _get_all_source_cameras test_dataset sequence_name
        num_workers;
      mret (Some all_source_cameras)
  | MULTI_SEQUENCE => mret None
  end.

(** [module.cuda()]: the module with its parameters on the GPU. *)
Definition ModelDBIR_on_cuda (model : ModelDBIR) : ModelDBIR :=
  {| render_image_width := render_image_width model;
     render_image_height := render_image_height model;
     bg_color := bg_color model;
     max_points := max_points model;
     model_device := CUDA |}.

Definition LPIPS_on_cuda (lpips_model : LPIPS) : LPIPS :=
  {| net := net lpips_model; lpips_device := CUDA |}.

(** The body of [for frame_data in tqdm(test_dataloader)]; [tqdm] hands on
    the batches as the dataloader yields them. *)
Definition eval_step (model : ModelDBIR) (lpips_model : LPIPS)
    (bg_color : color) (all_source_cameras : option (list Camera))
    (frame_data : FrameData) (per_batch_eval_results : list EvalResult)
  : M (list EvalResult) :=
  frame_data ← call (call_dataclass_to_cuda_ frame_data)
    (dataclass_to_cuda_ frame_data);
  preds ← call_random (call_model model frame_data)
    (ModelDBIR_forward model frame_data);
  render ← dict_getitem preds "implicitron_render";
  batch_result ← call_random
    (call_eval_batch frame_data render bg_color lpips_model all_source_cameras)
    (eval_batch frame_data render bg_color lpips_model all_source_cameras);
  mret (per_batch_eval_results ++ [batch_result]).

Definition evaluate_dbir_for_category (category : string) (task : Task)
    (bg_color : color) (single_sequence_id : option Z) (num_workers : Z)
    (path_manager : option PathManager) : M Metrics :=
  let single_sequence_id :=
    match single_sequence_id with Some id => id | None => -1 end in
  seed_generator 42;;
  dataset_root ← dict_getitem environ "CO3D_DATASET_ROOT";
  let dataset_map_provider_args :=
    {| category := category;
       dataset_root := dataset_root;
       assert_single_seq := bool_decide (task = SINGLE_SEQUENCE);
       task_str := Task_value task;
       test_on_train := false;
       load_point_clouds := true;
       test_restrict_sequence_id := single_sequence_id;
       path_manager := path_manager |} in
  call (new_ImplicitronDataSource dataset_map_provider_args) tt;;
  '(datasets, dataloaders) ← call_random
    (call_get_datasets_and_dataloaders dataset_map_provider_args)
    (get_datasets_and_dataloaders dataset_map_provider_args);
  match ds_test datasets, dl_test dataloaders with
  | Some test_dataset, Some test_dataloader =>
      all_source_cameras ← source_cameras_for task test_dataset num_workers;
      match image_width test_dataset with
      | None => raise (ValueError "Image size should be set in the dataset")
      | Some image_size =>
          let model :=
            {| render_image_width := image_size;
               render_image_height := image_size;
               bg_color := bg_color;
               max_points := 100000;
               model_device := CPU |} in
          call (new_ModelDBIR model) tt;;
          call (ModelDBIR_cuda model) tt;;
          let model := ModelDBIR_on_cuda model in
          let lpips_model := {| net := "vgg"; lpips_device := CPU |} in
          call (new_LPIPS "vgg") tt;;
          call (LPIPS_cuda lpips_model) tt;;
          let lpips_model := LPIPS_on_cuda lpips_model in
          call (print "Evaluating DBIR model ...") tt;;
          per_batch_eval_results ← for_in test_dataloader
            (eval_step model lpips_model bg_color all_source_cameras) [];
          let '(category_result_flat, category_result) :=
            summarize_nvs_eval_results per_batch_eval_results task in
          call (call_summarize_nvs_eval_results per_batch_eval_results task) tt;;
          dict_getitem category_result "results"
      end
  | _, _ => raise (ValueError "must have a test dataset.")
  end.

Definition _print_aggregate_results (task : Task)
    (task_results : odict (list Metrics)) : M unit :=
  results ← odict_getitem task_results task;
  aggregate_task_result ← call (call_aggregate_nvs_results results)
    (aggregate_nvs_results results);
  call (print "") tt;;
  call (print ("Aggregate results for task=" +:+ Task_str task +:+ ":")) tt;;
  call (call_pretty_print_nvs_metrics aggregate_task_result) tt;;
  call (print "") tt.

(** The body of the innermost loop of [main]. *)
Definition main_step (task : Task) (category : string)
    (single_sequence_id : option Z) (task_results : odict (list Metrics))
  : M (odict (list Metrics)) :=
  category_result ← evaluate_dbir_for_category category task default_bg_color
    single_sequence_id default_num_workers None;
  call (print "") tt;;
  call (print ("Results for task=" +:+ Task_str task +:+ "; category="
                 +:+ category +:+ ";"
                 +:+ match single_sequence_id with
                     | Some id => " sequence=" +:+ pretty id +:+ ":"
                     | None => ":"
                     end)) tt;;
  call (call_pretty_print_nvs_metrics category_result) tt;;
  call (print "") tt;;
  results ← odict_getitem task_results task;
  mret (odict_setitem task_results task (results ++ [category_result])).

(** The body of the loop over the categories of a task. *)
Definition main_category (task : Task) (category : string)
    (task_results : odict (list Metrics)) : M (odict (list Metrics)) :=
  task_results ← for_in
    (if decide (task = SINGLE_SEQUENCE) then [Some 0; Some 1] else [None])
    (main_step task category) task_results;
  _print_aggregate_results task task_results;;
  mret task_results.

(** The body of the loop over the tasks. *)
Definition main_task (task : Task) (task_results : odict (list Metrics))
  : M (odict (list Metrics)) :=
  let task_results := odict_setitem task_results task [] in
  for_in
    (take (if decide (task = SINGLE_SEQUENCE) then 20%nat else 10%nat)
       CO3D_CATEGORIES)
    (main_category task) task_results.

(** The first loop of [main]: one round per task. *)
Definition main_tasks : M (odict (list Metrics)) :=
  for_in [SINGLE_SEQUENCE; MULTI_SEQUENCE] main_task [].

Definition main : M unit :=
  task_results ← main_tasks;
  for_in (odict_keys task_results)
    (λ task _, _print_aggregate_results task task_results) tt.
End EvalDemo.


(** ** tests/implicitron/test_data_source.py *)

Section TestDataSource.
(** [get_default_args(ImplicitronDataSource)], [OmegaConf.to_yaml(cfg,
    sort_keys)] and [get_tests_dir()]. *)
Variable Config : Type.
Variable get_default_args_ImplicitronDataSource : Config.
Variable OmegaConf_to_yaml : Config -> bool -> string.
Variable tests_dir : string.

Definition DATA_DIR : string := tests_dir +:+ "/implicitron/data".

Definition DEBUG : bool := false.

(** [TestDataSource.test_one], run with the module global [DEBUG] bound to
    [debug] on the file system [files] (path to contents). *)
Definition test_one_under (debug : bool) (files : gmap string string)
  : result unit * gmap string string :=
  let cfg := get_default_args_ImplicitronDataSource in
  let yaml := OmegaConf_to_yaml cfg false in
  let files :=
    if debug then <[DATA_DIR +:+ "/data_source.yaml" := yaml]> files
    else files in
  match files !! (DATA_DIR +:+ "/data_source.yaml") with
  | None => (Raise (FileNotFoundError (DATA_DIR +:+ "/data_source.yaml")), files)
  | Some golden =>
      if decide (yaml = golden) then (Ok tt, files)
      else (Raise (AssertionError yaml golden), files)
  end.

Definition test_one : gmap string string -> result unit * gmap string string :=
  test_one_under DEBUG.
End TestDataSource.

(** ** Vocabulary of the statements *)

Section Reference.
Context `{Library}.

(** The dictionary [dataset_map_provider_args] that a call builds once
    [os.environ] has answered with [dataset_root]. *)
Definition data_source_args (category : string) (task : Task)
    (single_sequence_id : option Z) (path_manager : option PathManager)
    (dataset_root : string) : dataset_map_provider_args :=
  {| category := category;
     dataset_root := dataset_root;
     assert_single_seq := bool_decide (task = SINGLE_SEQUENCE);
     task_str := Task_value task;
     test_on_train := false;
     load_point_clouds := true;
     test_restrict_sequence_id :=
       match single_sequence_id with Some id => id | None => -1 end;
     path_manager := path_manager |}.

(** What the data source configured with [args] hands out right after the
    generator was seeded with 42: the test dataset, the test dataloader and
    the generator state it leaves. *)
Definition test_dataset_of (args : dataset_map_provider_args)
  : option ImplicitronDataset :=
  ds_test (get_datasets_and_dataloaders args (manual_seed 42)).1.1.

Definition test_dataloader_of (args : dataset_map_provider_args)
  : option (list FrameData) :=
  dl_test (get_datasets_and_dataloaders args (manual_seed 42)).1.2.

Definition rng_loaded (args : dataset_map_provider_args) : Rng :=
  (get_datasets_and_dataloaders args (manual_seed 42)).2.

(** The calls every run starts with once [os.environ] has answered. *)
Definition setup_trace (args : dataset_map_provider_args) : list event :=
  [ torch_manual_seed 42;
    new_ImplicitronDataSource args;
    call_get_datasets_and_dataloaders args ].

(** The model as constructed for images of width [image_size], and the
    calls that build the two modules and announce the loop. *)
Definition model_for (image_size : Z) (bg : color) : ModelDBIR :=
  {| render_image_width := image_size;
     render_image_height := image_size;
     bg_color := bg;
     max_points := 100000;
     model_device := CPU |}.

Definition modules_trace (image_size : Z) (bg : color) : list event :=
  [ new_ModelDBIR (model_for image_size bg);
    ModelDBIR_cuda (model_for image_size bg);
    new_LPIPS "vgg";
    LPIPS_cuda {| net := "vgg"; lpips_device := CPU |};
    print "Evaluating DBIR model ..." ].

(** One round of the evaluation loop, as seen from outside: the batch the
    dataloader yielded, the render the model gave and the result of
    [eval_batch]; and the three calls of the round. *)
Definition round : Type := FrameData * Render * EvalResult.

Definition round_trace (model : ModelDBIR) (lpips_model : LPIPS) (bg : color)
    (source_cameras : option (list Camera)) (rd : round) : list event :=
  [ call_dataclass_to_cuda_ rd.1.1;
    call_model model (dataclass_to_cuda_ rd.1.1);
    call_eval_batch (dataclass_to_cuda_ rd.1.1) rd.1.2 bg lpips_model
      source_cameras ].

(** The render and the result of a round come from the model and from
    [eval_batch], run on the batch moved to the GPU. *)
Definition round_computed (model : ModelDBIR) (lpips_model : LPIPS)
    (bg : color) (source_cameras : option (list Camera)) (rd : round) : Prop :=
  (∃ r, (ModelDBIR_forward model (dataclass_to_cuda_ rd.1.1) r).1
          !! "implicitron_render" = Some rd.1.2) ∧
  (∃ r, rd.2 = (eval_batch (dataclass_to_cuda_ rd.1.1) rd.1.2 bg lpips_model
                  source_cameras r).1).

(** Events that construct a module or evaluate a batch. *)
Definition is_model_or_batch_event (e : event) : bool :=
  match e with
  | new_ModelDBIR _ | ModelDBIR_cuda _ | new_LPIPS _ | LPIPS_cuda _
  | call_dataclass_to_cuda_ _ | call_model _ _
  | call_eval_batch _ _ _ _ _ => true
  | _ => false
  end.

(** Events that construct a module or move it to the GPU. *)
Definition is_module_event (e : event) : bool :=
  match e with
  | new_ModelDBIR _ | ModelDBIR_cuda _ | new_LPIPS _ | LPIPS_cuda _ => true
  | _ => false
  end.

(** A call of the model or of [eval_batch] that uses the given modules and
    background colour. *)
Definition uses_modules (model : ModelDBIR) (lpips_model : LPIPS) (bg : color)
    (e : event) : Prop :=
  match e with
  | call_model model' _ => model' = model
  | call_eval_batch _ _ bg' lpips_model' _ => bg' = bg ∧ lpips_model' = lpips_model
  | _ => True
  end.

(** A call of [eval_batch] that passes [expected] as [source_cameras]. *)
Definition passes_source_cameras (expected : option (list Camera)) (e : event)
  : Prop :=
  match e with
  | call_eval_batch _ _ _ _ source_cameras => source_cameras = expected
  | _ => True
  end.

(** A loader constructed over all frames of the sequence, in sequence
    order, unshuffled, with the whole sequence as its batch size. *)
Definition loads_whole_sequence (dataset : ImplicitronDataset)
    (sequence_name : string) (num_workers : Z) (e : event) : Prop :=
  match e with
  | new_DataLoader items shuffle batch_size num_workers' =>
      items = map (getitem dataset)
                (sequence_indices_in_order dataset sequence_name) ∧
      shuffle = false ∧ batch_size = length items ∧ num_workers' = num_workers
  | _ => True
  end.

(** The source cameras of a sequence, said in words: the cameras of the
    known frames among the frames of the sequence, in sequence order. *)
Definition known_cameras_of_sequence (dataset : ImplicitronDataset)
    (sequence_name : string) : list Camera :=
  map item_camera
    (filter (λ frame, is_known_frame_scalar (item_frame_type frame) = true)
       (map (getitem dataset) (sequence_indices_in_order dataset sequence_name))).

(** The loader of [_get_all_source_cameras] does what the call asks of it:
    unshuffled and with the batch size set to the number of items, it
    yields one batch holding the frame types and cameras of all items in
    order. *)
Definition loads_in_one_batch : Prop :=
  ∀ items num_workers r, items ≠ [] →
    ∃ batch, (DataLoader items false (length items) num_workers r).1 = [batch] ∧
             frame_type batch = map item_frame_type items ∧
             camera batch = map item_camera items.

(** The call of [main] for a category and a sequence id, and what it
    returns; a call does not depend on the generator state it starts in. *)
Definition evaluated (task : Task) (category : string)
    (single_sequence_id : option Z) : Run Metrics :=
  evaluate_dbir_for_category category task default_bg_color single_sequence_id
    default_num_workers None (manual_seed 42).

(** The sequence ids [main] goes through for each category of a task. *)
Definition sequence_ids (task : Task) : list (option Z) :=
  match task with
  | SINGLE_SEQUENCE => [Some 0; Some 1]
  | MULTI_SEQUENCE => [None]
  end.

(** The categories [main] goes through for a task. *)
Definition categories (task : Task) : list string :=
  match task with
  | SINGLE_SEQUENCE => take 20 CO3D_CATEGORIES
  | MULTI_SEQUENCE => take 10 CO3D_CATEGORIES
  end.

(** [per_category] lists, category by category, the metrics that the calls
    for the sequence ids of the task return. *)
Definition evaluates_to (task : Task) (per_category : list (list Metrics))
  : Prop :=
  Forall2
    (λ category results,
       Forall2 (λ id result, value (evaluated task category id) = Ok result)
         (sequence_ids task) results)
    (categories task) per_category.

(** What [main] prints for one call, and for the aggregate of a task. *)
Definition result_report (task : Task) (category : string)
    (single_sequence_id : option Z) (category_result : Metrics) : list event :=
  [ print "";
    print ("Results for task=" +:+ Task_str task +:+ "; category="
             +:+ category +:+ ";"
             +:+ match single_sequence_id with
                 | Some id => " sequence=" +:+ pretty id +:+ ":"
                 | None => ":"
                 end);
    call_pretty_print_nvs_metrics category_result;
    print "" ].

Definition aggregate_report (task : Task) (results : list Metrics)
  : list event :=
  [ call_aggregate_nvs_results results;
    print "";
    print ("Aggregate results for task=" +:+ Task_str task +:+ ":");
    call_pretty_print_nvs_metrics (aggregate_nvs_results results);
    print "" ].

(** The trace of the calls for one category: each call followed by the
    report of its result. *)
Definition category_trace (task : Task) (category : string)
    (results : list Metrics) : list event :=
  flat_map
    (λ '(id, result),
       trace (evaluated task category id)
       ++ result_report task category id result)
    (zip (sequence_ids task) results).

(** The trace of a task: category by category, the calls and their
    reports, then the aggregate over everything the task has gathered so
    far. *)
Fixpoint task_trace (task : Task) (so_far : list Metrics)
    (todo : list (string * list Metrics)) : list event :=
  match todo with
  | [] => []
  | (category, results) :: todo' =>
      category_trace task category results
      ++ aggregate_report task (so_far ++ results)
      ++ task_trace task (so_far ++ results) todo'
  end.

(** What a data source says about the call that configured it: the
    category, whether the task is the single-sequence one, and the sequence
    the test split is restricted to (-1: none). *)
Definition call_signature (args : dataset_map_provider_args)
  : string * bool * Z :=
  (category args, assert_single_seq args, test_restrict_sequence_id args).

(** The data sources constructed in a trace, in order. *)
Definition data_sources (events : list event)
  : list dataset_map_provider_args :=
  flat_map
    (λ e, match e with new_ImplicitronDataSource args => [args] | _ => [] end)
    events.
End Reference.

(** ** A small concrete world

    Three categories on disk.  Every test split has three frames of one
    sequence and two batches, except for the category ["empty"], whose test
    dataset has no frame and no image width, and the category ["nosplit"],
    which has no test split.  Renders and metrics record the generator
    state they were computed in. *)

Module Sample.

#[export] Instance externals : Externals := {|
  Rng := Z;
  manual_seed := λ seed, seed;
  environ := {[ "CO3D_DATASET_ROOT" := "/data/co3d" ]};
  PathManager := unit;
  Camera := nat;
  Tensors := nat;
  Render := Z;
  EvalResult := Z;
  FlatResult := unit;
  Metrics := list Z;
  Task_value := λ task,
    match task with
    | SINGLE_SEQUENCE => "singlesequence"
    | MULTI_SEQUENCE => "multisequence"
    end;
  CO3D_CATEGORIES := ["apple"; "backpack"; "banana"];
  is_known_frame_scalar := λ frame_type, bool_decide (frame_type ≠ "test_unseen");
|}.

Definition frames : list Frame :=
  [ {| item_frame_type := "test_known"; item_camera := 10%nat; item_tensors := 0%nat |};
    {| item_frame_type := "test_unseen"; item_camera := 11%nat; item_tensors := 1%nat |};
    {| item_frame_type := "test_known"; item_camera := 12%nat; item_tensors := 2%nat |} ].

Definition collate (items : list Frame) : FrameData :=
  {| frame_type := map item_frame_type items;
     camera := map item_camera items;
     tensors := length items |}.

Definition dataset : ImplicitronDataset :=
  {| frame_annots :=
       replicate 3 {| subset := Some "test";
                      frame_annotation := {| sequence_name := "seq0" |} |};
     image_width := Some 800;
     sequence_indices_in_order := λ name,
       if decide (name = "seq0") then [2; 0; 1]%nat else [];
     getitem := λ i, default
       {| item_frame_type := ""; item_camera := 0%nat; item_tensors := 0%nat |}
       (frames !! i) |}.

Definition empty_dataset : ImplicitronDataset :=
  {| frame_annots := [];
     image_width := None;
     sequence_indices_in_order := λ _, [];
     getitem := getitem dataset |}.

Definition batches : list FrameData :=
  [collate (take 2 frames); collate (drop 2 frames)].

#[export] Instance library : Library := {|
  get_datasets_and_dataloaders := λ args r,
    (if decide (category args = "nosplit") then
       ({| ds_train := Some dataset; ds_val := None; ds_test := None |},
        {| dl_train := Some batches; dl_val := None; dl_test := None |})
     else if decide (category args = "empty") then
       ({| ds_train := None; ds_val := None; ds_test := Some empty_dataset |},
        {| dl_train := None; dl_val := None; dl_test := Some [] |})
     else
       ({| ds_train := None; ds_val := None; ds_test := Some dataset |},
        {| dl_train := None; dl_val := None;
           dl_test := Some (if decide (category args = "banana")
                            then batches ++ [collate frames] else batches) |}),
     r + 1);
  DataLoader := λ items shuffle batch_size num_workers r,
    (if decide (batch_size = length items) then [collate items] else [], r + 1);
  dataclass_to_cuda_ := λ frame_data, frame_data;
  ModelDBIR_forward := λ model frame_data r,
    ({[ "implicitron_render" := r ]}, r + 1);
  eval_batch := λ frame_data render bg lpips_model source_cameras r,
    (render + Z.of_nat (tensors frame_data), r + 1);
  summarize_nvs_eval_results := λ per_batch task,
    (tt, {[ "results" := per_batch ]});
  aggregate_nvs_results := λ results, concat results;
|}.

(** A generator state to start a run in, and what the calls of [main]
    return in this world, category by category. *)
Definition start : Rng := 7.

Definition single_results : list (list Metrics) :=
  [[[46; 47]; [46; 47]]; [[46; 47]; [46; 47]]; [[46; 47; 51]; [46; 47; 51]]].

Definition multi_results : list (list Metrics) :=
  [[[45; 46]]; [[45; 46]]; [[45; 46; 50]]].

End Sample.

(** ** Observations on a trace *)

Section Observations.
Context `{Library}.

(** The seeds given to [torch.manual_seed], in order. *)
Definition seeds (events : list event) : list Z :=
  flat_map (λ e, match e with torch_manual_seed seed => [seed] | _ => [] end)
    events.

(** The datasets over which a [DataLoader] was constructed, in order. *)
Definition loaders (events : list event) : list (list Frame) :=
  flat_map (λ e, match e with new_DataLoader items _ _ _ => [items] | _ => [] end)
    events.

(** The batches handed to [dataclass_to_cuda_], to the model and to
    [eval_batch], in order. *)
Definition moved_batches (events : list event) : list FrameData :=
  flat_map
    (λ e, match e with call_dataclass_to_cuda_ frame_data => [frame_data]
                     | _ => [] end)
    events.

Definition model_inputs (events : list event) : list FrameData :=
  flat_map
    (λ e, match e with call_model _ frame_data => [frame_data] | _ => [] end)
    events.

Definition eval_inputs (events : list event) : list FrameData :=
  flat_map
    (λ e, match e with call_eval_batch frame_data _ _ _ _ => [frame_data]
                     | _ => [] end)
    events.

(** The [source_cameras] handed to [eval_batch], call by call. *)
Definition source_cameras_passed (events : list event)
  : list (option (list Camera)) :=
  flat_map
    (λ e, match e with
          | call_eval_batch _ _ _ _ source_cameras => [source_cameras]
          | _ => []
          end)
    events.

(** The lists handed to [summarize_nvs_eval_results], with the task. *)
Definition summarized (events : list event) : list (list EvalResult * Task) :=
  flat_map
    (λ e, match e with
          | call_summarize_nvs_eval_results per_batch task => [(per_batch, task)]
          | _ => []
          end)
    events.

(** The exceptions [evaluate_dbir_for_category] raises on its own. *)
Definition own_exceptions : list exn :=
  [ KeyError "CO3D_DATASET_ROOT";
    ValueError "must have a test dataset.";
    IndexError "list index out of range";
    ValueError "not enough values to unpack (expected 1, got 0)";
    ValueError "too many values to unpack (expected 1)";
    IndexError "camera index out of bounds";
    ValueError "Image size should be set in the dataset";
    KeyError "implicitron_render";
    KeyError "results" ].

(** The calls of one category that came back before a call failed: the
    results at hand are paired with the first sequence ids. *)
Definition partial_category_trace (task : Task) (category : string)
    (ids : list (option Z)) (results : list Metrics) : list event :=
  flat_map
    (λ '(id, result),
       trace (evaluated task category id)
       ++ result_report task category id result)
    (zip ids results).
End Observations.

(** ** A family of small worlds

    The worlds differ in the environment and in the list of categories.
    Every test split has two frames of one sequence, one batch each, except
    that the category ["empty"] has a test dataset with no frame and no
    image width, and the category ["single_only"] has a test split for the
    single-sequence task only. *)

Module Scenario.
Section World.
Variable env : gmap string string.
Variable cats : list string.

#[local] Instance externals : Externals := {|
  Rng := Z;
  manual_seed := λ seed, seed;
  environ := env;
  PathManager := unit;
  Camera := nat;
  Tensors := nat;
  Render := Z;
  EvalResult := Z;
  FlatResult := unit;
  Metrics := list Z;
  Task_value := λ task,
    match task with
    | SINGLE_SEQUENCE => "singlesequence"
    | MULTI_SEQUENCE => "multisequence"
    end;
  CO3D_CATEGORIES := cats;
  is_known_frame_scalar := λ frame_type, bool_decide (frame_type = "known");
|}.

Definition frames : list Frame :=
  [ {| item_frame_type := "known"; item_camera := 5%nat; item_tensors := 1%nat |};
    {| item_frame_type := "unseen"; item_camera := 6%nat; item_tensors := 2%nat |} ].

Definition collate (items : list Frame) : FrameData :=
  {| frame_type := map item_frame_type items;
     camera := map item_camera items;
     tensors := length items |}.

Definition dataset : ImplicitronDataset :=
  {| frame_annots :=
       [ {| subset := Some "test";
            frame_annotation := {| sequence_name := "seq" |} |} ];
     image_width := Some 64;
     sequence_indices_in_order := λ name,
       if decide (name = "seq") then [0; 1]%nat else [];
     getitem := λ i, default
       {| item_frame_type := ""; item_camera := 0%nat; item_tensors := 0%nat |}
       (frames !! i) |}.

Definition no_frames : ImplicitronDataset :=
  {| frame_annots := [];
     image_width := None;
     sequence_indices_in_order := λ _, [];
     getitem := getitem dataset |}.

Definition batches : list FrameData :=
  [collate (take 1 frames); collate (drop 1 frames)].

#[local] Instance library : Library := {|
  get_datasets_and_dataloaders := λ args r,
    (if decide (category args = "empty") then
       ({| ds_train := None; ds_val := None; ds_test := Some no_frames |},
        {| dl_train := None; dl_val := None; dl_test := Some [] |})
     else if decide (category args = "single_only"
                     ∧ assert_single_seq args = false) then
       ({| ds_train := None; ds_val := None; ds_test := None |},
        {| dl_train := None; dl_val := None; dl_test := None |})
     else
       ({| ds_train := None; ds_val := None; ds_test := Some dataset |},
        {| dl_train := None; dl_val := None; dl_test := Some batches |}),
     r + 1);
  DataLoader := λ items shuffle batch_size num_workers r,
    (if decide (batch_size = length items) then [collate items] else [], r + 1);
  dataclass_to_cuda_ := λ frame_data, frame_data;
  ModelDBIR_forward := λ model frame_data r,
    ({[ "implicitron_render" := r ]}, r + 1);
  eval_batch := λ frame_data render bg lpips_model source_cameras r,
    (render + Z.of_nat (tensors frame_data), r + 1);
  summarize_nvs_eval_results := λ per_batch task,
    (tt, {[ "results" := per_batch ]});
  aggregate_nvs_results := λ results, concat results;
|}.

Definition start : Rng := 3.
End World.

(** The environment that names the dataset root. *)
Definition configured : gmap string string :=
  {[ "CO3D_DATASET_ROOT" := "/data/co3d" ]}.
End Scenario.

(** ** Running the monad *)

Section MonadFacts.
Context `{Externals}.

Lemma run_bind {A B} (m : M A) (k : A → M B) (r : Rng) :
  (m ≫= k) r =
  match value (m r) with
  | Ok a =>
      {| value := value (k a (rng_after (m r)));
         rng_after := rng_after (k a (rng_after (m r)));
         trace := trace (m r) ++ trace (k a (rng_after (m r))) |}
  | Raise e =>
      {| value := Raise e; rng_after := rng_after (m r); trace := trace (m r) |}
  end.
Proof. reflexivity. Qed.

(** An invariant of the trace passes through [bind] and [for_in]. *)
Lemma trace_bind_Forall {A B} (P : event → Prop) (m : M A) (k : A → M B) r :
  Forall P (trace (m r)) →
  (∀ a r', Forall P (trace (k a r'))) →
  Forall P (trace ((m ≫= k) r)).
Proof.
  intros Hm Hk. rewrite run_bind. destruct (value (m r)); simpl; [|done].
  apply Forall_app; auto.
Qed.

Lemma trace_for_in_Forall {A S} (P : event → Prop) (xs : list A)
    (body : A → S → M S) :
  (∀ x s r, Forall P (trace (body x s r))) →
  ∀ s r, Forall P (trace (for_in xs body s r)).
Proof.
  intros Hbody. induction xs as [|x xs IH]; intros s r; simpl.
  - constructor.
  - apply trace_bind_Forall; auto.
Qed.

End MonadFacts.

(** ** Runs of [evaluate_dbir_for_category] *)

Section EvaluateFacts.
Context `{Library}.

Lemma where_from_select (p : string → bool) (items : list Frame)
    (before : list Camera) :
  mapM (λ i, (before ++ map item_camera items) !! i)
    (where_from (length before) (map p (map item_frame_type items)))
  = Some (map item_camera
            (filter (λ frame, p (item_frame_type frame) = true) items)).
Proof.
  revert before. induction items as [|x items IH]; intros before; [done|].
  specialize (IH (before ++ [item_camera x])).
  rewrite length_app, Nat.add_1_r, <- app_assoc in IH. simpl in IH.
  simpl. destruct (p (item_frame_type x)) eqn:Hp.
  - rewrite filter_cons_True by done. simpl.
    rewrite list_lookup_middle by done. simpl. by rewrite IH.
  - rewrite filter_cons_False by (rewrite Hp; done). simpl. by rewrite IH.
Qed.

Lemma get_all_source_cameras_run dataset name num_workers r :
  let items := Subset dataset (sequence_indices_in_order dataset name) in
  let loaded := DataLoader items false (length items) num_workers r in
  _get_all_source_cameras dataset name num_workers r =
  {| value :=
       match loaded.1 with
       | [batch] =>
           match mapM (λ i, camera batch !! i)
                   (torch_where (is_known_frame (frame_type batch))) with
           | Some selected => Ok selected
           | None => Raise (IndexError "camera index out of bounds")
           end
       | [] => Raise (ValueError "not enough values to unpack (expected 1, got 0)")
       | _ => Raise (ValueError "too many values to unpack (expected 1)")
       end;
     rng_after := loaded.2;
     trace := [new_DataLoader items false (length items) num_workers] |}.
Proof.
  intros items loaded. unfold _get_all_source_cameras.
  fold items. rewrite run_bind. unfold call_random at 1 2 3. fold loaded.
  cbn [value rng_after trace]. rewrite run_bind.
  destruct loaded as [[|batch [|??]] r1]; simpl; try done.
  unfold cameras_getitem. by case_match.
Qed.

Lemma source_cameras_for_run task dataset num_workers r :
  source_cameras_for task dataset num_workers r =
  match task with
  | MULTI_SEQUENCE => {| value := Ok None; rng_after := r; trace := [] |}
  | SINGLE_SEQUENCE =>
      match frame_annots dataset !! 0%nat with
      | None =>
          {| value := Raise (IndexError "list index out of range");
             rng_after := r; trace := [] |}
      | Some first_entry =>
          let found := _get_all_source_cameras dataset
                         (sequence_name (frame_annotation first_entry))
                         num_workers r in
          {| value := match value found with
                      | Ok cameras => Ok (Some cameras)
                      | Raise e => Raise e
                      end;
             rng_after := rng_after found;
             trace := trace found |}
      end
  end.
Proof.
  destruct task; [|done]. unfold source_cameras_for, list_getitem.
  destruct (frame_annots dataset !! 0%nat) as [first_entry|]; [|done].
  rewrite run_bind. cbn [mret M_ret value rng_after trace app].
  rewrite run_bind.
  destruct (_get_all_source_cameras _ _ _ _) as [[cameras|e] r' found_trace];
    simpl; [|done].
  by rewrite app_nil_r.
Qed.

Lemma evaluate_run category task bg single_sequence_id num_workers path_manager r :
  evaluate_dbir_for_category category task bg single_sequence_id num_workers
    path_manager r =
  match environ !! "CO3D_DATASET_ROOT" with
  | None =>
      {| value := Raise (KeyError "CO3D_DATASET_ROOT");
         rng_after := manual_seed 42;
         trace := [torch_manual_seed 42] |}
  | Some dataset_root =>
      let args := data_source_args category task single_sequence_id
                    path_manager dataset_root in
      match test_dataset_of args, test_dataloader_of args with
      | Some test_dataset, Some test_dataloader =>
          let found := source_cameras_for task test_dataset num_workers
                         (rng_loaded args) in
          match value found, image_width test_dataset with
          | Raise e, _ =>
              {| value := Raise e; rng_after := rng_after found;
                 trace := setup_trace args ++ trace found |}
          | Ok _, None =>
              {| value := Raise (ValueError "Image size should be set in the dataset");
                 rng_after := rng_after found;
                 trace := setup_trace args ++ trace found |}
          | Ok all_source_cameras, Some image_size =>
              let looped :=
                for_in test_dataloader
                  (eval_step (ModelDBIR_on_cuda (model_for image_size bg))
                     {| net := "vgg"; lpips_device := CUDA |} bg
                     all_source_cameras)
                  [] (rng_after found) in
              match value looped with
              | Raise e =>
                  {| value := Raise e; rng_after := rng_after looped;
                     trace := setup_trace args ++ trace found
                              ++ modules_trace image_size bg ++ trace looped |}
              | Ok per_batch_eval_results =>
                  {| value :=
                       match (summarize_nvs_eval_results
                                per_batch_eval_results task).2 !! "results" with
                       | Some results => Ok results
                       | None => Raise (KeyError "results")
                       end;
                     rng_after := rng_after looped;
                     trace := setup_trace args ++ trace found
                              ++ modules_trace image_size bg ++ trace looped
                              ++ [call_summarize_nvs_eval_results
                                    per_batch_eval_results task] |}
              end
          end
      | _, _ =>
          {| value := Raise (ValueError "must have a test dataset.");
             rng_after := rng_loaded args;
             trace := setup_trace args |}
      end
  end.
Proof.
  unfold evaluate_dbir_for_category, test_dataset_of, test_dataloader_of,
    rng_loaded, dict_getitem.
  rewrite run_bind. cbn [seed_generator value rng_after trace]. rewrite run_bind.
  destruct (environ !! "CO3D_DATASET_ROOT") as [dataset_root|]; [|reflexivity].
  cbn [mret M_ret value rng_after trace].
  fold (data_source_args category task single_sequence_id path_manager
          dataset_root).
  set (args := data_source_args _ _ _ _ _).
  rewrite run_bind. cbn [call value rng_after trace].
  rewrite run_bind. cbn [call_random value rng_after trace].
  destruct (get_datasets_and_dataloaders args (manual_seed 42))
    as [[datasets dataloaders] r1]. cbn [fst snd].
  destruct (ds_test datasets) as [test_dataset|]; [|reflexivity].
  destruct (dl_test dataloaders) as [test_dataloader|]; [|reflexivity].
  rewrite run_bind.
  destruct (source_cameras_for task test_dataset num_workers r1)
    as [[all_source_cameras|e] r2 found_trace];
    cbn [value rng_after trace]; [|reflexivity].
  destruct (image_width test_dataset) as [image_size|];
    [|cbn; by rewrite app_nil_r].
  do 5 (rewrite run_bind; cbn [call value rng_after trace]). rewrite run_bind.
  fold (model_for image_size bg).
  change (LPIPS_on_cuda {| net := "vgg"; lpips_device := CPU |})
    with {| net := "vgg"; lpips_device := CUDA |}.
  destruct (for_in test_dataloader _ _ r2)
    as [[per_batch_eval_results|e] r3 loop_trace];
    cbn [value rng_after trace]; [|reflexivity].
  destruct (summarize_nvs_eval_results per_batch_eval_results task)
    as [flat category_result] eqn:Hsum. rewrite run_bind.
  cbn [call value rng_after trace snd].
  by destruct (category_result !! "results").
Qed.
End EvaluateFacts.

Section LoopFacts.
Context `{Library}.

Lemma eval_step_run model lpips_model bg cameras frame_data acc r :
  let moved := dataclass_to_cuda_ frame_data in
  let forwarded := ModelDBIR_forward model moved r in
  eval_step model lpips_model bg cameras frame_data acc r =
  match forwarded.1 !! "implicitron_render" with
  | None =>
      {| value := Raise (KeyError "implicitron_render");
         rng_after := forwarded.2;
         trace := [call_dataclass_to_cuda_ frame_data; call_model model moved] |}
  | Some render =>
      let evaluated := eval_batch moved render bg lpips_model cameras
                         forwarded.2 in
      {| value := Ok (acc ++ [evaluated.1]);
         rng_after := evaluated.2;
         trace := round_trace model lpips_model bg cameras
                    (frame_data, render, evaluated.1) |}
  end.
Proof.
  intros moved forwarded. unfold eval_step, dict_getitem.
  rewrite run_bind. cbn [call value rng_after trace].
  rewrite run_bind. cbn [call_random value rng_after trace].
  fold moved. fold forwarded. rewrite run_bind.
  destruct (forwarded.1 !! "implicitron_render") as [render|]; [|reflexivity].
  cbn [mret M_ret value rng_after trace]. rewrite run_bind. reflexivity.
Qed.

(** The loop either finishes, having gone through the batches one round
    each, or stops at a batch for which the model gave no render. *)
Lemma eval_loop_run model lpips_model bg cameras batches :
  ∀ acc r,
    let looped := for_in batches (eval_step model lpips_model bg cameras) acc r in
    match value looped with
    | Ok per_batch =>
        ∃ rounds : list round,
          map (λ rd, rd.1.1) rounds = batches ∧
          per_batch = acc ++ map snd rounds ∧
          trace looped = flat_map (round_trace model lpips_model bg cameras) rounds ∧
          Forall (round_computed model lpips_model bg cameras) rounds
    | Raise e =>
        e = KeyError "implicitron_render" ∧
        ∃ frame_data r', frame_data ∈ batches ∧
          (ModelDBIR_forward model (dataclass_to_cuda_ frame_data) r').1
            !! "implicitron_render" = None
    end.
Proof.
  induction batches as [|frame_data batches IH]; intros acc r; simpl.
  - exists []. by rewrite app_nil_r.
  - rewrite run_bind, eval_step_run.
    destruct ((ModelDBIR_forward model (dataclass_to_cuda_ frame_data) r).1
                !! "implicitron_render") as [render|] eqn:Hrender;
      cbn [value rng_after trace].
    + set (evaluated := eval_batch _ _ _ _ _ _).
      specialize (IH (acc ++ [evaluated.1]) evaluated.2). simpl in IH.
      destruct (value (for_in batches _ _ _)) as [per_batch|e].
      * destruct IH as (rounds & Hbatches & Hper & Htrace & Hrounds).
        exists ((frame_data, render, evaluated.1) :: rounds).
        split_and!; simpl.
        -- by rewrite Hbatches.
        -- by rewrite Hper, <- app_assoc.
        -- by rewrite Htrace.
        -- constructor; [|done]. split; eauto.
      * destruct IH as (-> & fd & r' & Hin & Hnone).
        split; [done|]. exists fd, r'. split; [by right|done].
    + split; [done|]. exists frame_data, r. split; [by left|done].
Qed.

(** Every round uses the modules and the source cameras the loop was
    started with, whether or not the loop finishes. *)
Lemma eval_loop_events (P : event → Prop) model lpips_model bg cameras batches :
  (∀ fd, P (call_dataclass_to_cuda_ fd)) →
  (∀ fd, P (call_model model fd)) →
  (∀ fd render, P (call_eval_batch fd render bg lpips_model cameras)) →
  ∀ acc r,
    Forall P (trace (for_in batches (eval_step model lpips_model bg cameras) acc r)).
Proof.
  intros Hcuda Hmodel Heval. apply trace_for_in_Forall. intros fd acc r.
  rewrite eval_step_run. case_match; simpl; repeat constructor; auto.
Qed.

Lemma source_cameras_trace task dataset num_workers r :
  trace (source_cameras_for task dataset num_workers r) = [] ∨
  ∃ first_entry,
    task = SINGLE_SEQUENCE ∧
    frame_annots dataset !! 0%nat = Some first_entry ∧
    let items := Subset dataset
                   (sequence_indices_in_order dataset
                      (sequence_name (frame_annotation first_entry))) in
    trace (source_cameras_for task dataset num_workers r) =
    [new_DataLoader items false (length items) num_workers].
Proof.
  rewrite source_cameras_for_run. destruct task; [|by left].
  destruct (frame_annots dataset !! 0%nat) as [first_entry|] eqn:Hfirst;
    [|by left].
  right. exists first_entry. split_and!; [done..|]. cbn [trace].
  by rewrite get_all_source_cameras_run.
Qed.

(** Where the loader yields the whole sequence as one batch, the source
    cameras are the cameras of the known frames, in sequence order. *)
Lemma get_all_source_cameras_known dataset name num_workers r :
  loads_in_one_batch →
  sequence_indices_in_order dataset name ≠ [] →
  value (_get_all_source_cameras dataset name num_workers r) =
  Ok (known_cameras_of_sequence dataset name).
Proof.
  intros Hload Hne. rewrite get_all_source_cameras_run. simpl.
  destruct (Hload (Subset dataset (sequence_indices_in_order dataset name))
              num_workers r) as (batch & -> & Htypes & Hcams).
  { unfold Subset. by destruct (sequence_indices_in_order dataset name). }
  rewrite Htypes, Hcams. unfold torch_where, is_known_frame.
  pose proof (where_from_select is_known_frame_scalar
                (Subset dataset (sequence_indices_in_order dataset name)) [])
    as Hsel.
  simpl in Hsel. by rewrite Hsel.
Qed.
End LoopFacts.

(** ** Properties of [evaluate_dbir_for_category] *)

Section EvaluateClaims.
Context `{Library}.

Lemma filter_nil_Forall {A} (f : A → bool) (l : list A) :
  Forall (λ x, f x = false) l → List.filter f l = [].
Proof. induction 1 as [|x l Hx _ IH]; simpl; [done|]. by rewrite Hx. Qed.

Lemma data_sources_app (l1 l2 : list event) :
  data_sources (l1 ++ l2) = data_sources l1 ++ data_sources l2.
Proof. unfold data_sources. apply flat_map_app. Qed.

Lemma data_sources_nil (l : list event) :
  Forall (λ e, match e with new_ImplicitronDataSource _ => False | _ => True end) l →
  data_sources l = [].
Proof.
  induction 1 as [|e l He _ IH]; [done|]. unfold data_sources in *. simpl.
  rewrite IH. by destruct e.
Qed.

(** The calls made while the source cameras are loaded: none, or the
    construction of one loader. *)
Lemma source_cameras_trace_Forall (P : event → Prop) task dataset num_workers r :
  (∀ items shuffle batch_size nw, P (new_DataLoader items shuffle batch_size nw)) →
  Forall P (trace (source_cameras_for task dataset num_workers r)).
Proof.
  intros HP. destruct (source_cameras_trace task dataset num_workers r)
    as [->|(first_entry & _ & _ & ->)]; repeat constructor. apply HP.
Qed.

Lemma source_cameras_raises task dataset num_workers r e :
  value (source_cameras_for task dataset num_workers r) = Raise e →
  e = IndexError "list index out of range" ∨
  e = IndexError "camera index out of bounds" ∨
  e = ValueError "not enough values to unpack (expected 1, got 0)" ∨
  e = ValueError "too many values to unpack (expected 1)".
Proof.
  rewrite source_cameras_for_run. destruct task; [|done].
  destruct (frame_annots dataset !! 0%nat); [|intros [= <-]; by left].
  cbn [value]. rewrite get_all_source_cameras_run. cbn [value].
  intros Hraise. repeat case_match; simplify_eq; auto.
Qed.

Lemma evaluate_independent category task bg single_sequence_id num_workers
    path_manager r r' :
  evaluate_dbir_for_category category task bg single_sequence_id num_workers
    path_manager r =
  evaluate_dbir_for_category category task bg single_sequence_id num_workers
    path_manager r'.
Proof. by rewrite !evaluate_run. Qed.

(** The data sources a call constructs: one, once [os.environ] has
    answered. *)
Lemma evaluate_data_sources category task bg single_sequence_id num_workers
    path_manager r :
  data_sources
    (trace (evaluate_dbir_for_category category task bg single_sequence_id
              num_workers path_manager r)) =
  match environ !! "CO3D_DATASET_ROOT" with
  | Some dataset_root =>
      [data_source_args category task single_sequence_id path_manager
         dataset_root]
  | None => []
  end.
Proof.
  rewrite evaluate_run.
  destruct (environ !! "CO3D_DATASET_ROOT") as [dataset_root|]; [|done].
  set (args := data_source_args _ _ _ _ _). cbn zeta.
  assert (Hfound : ∀ ds r', data_sources
            (trace (source_cameras_for task ds num_workers r')) = []).
  { intros ds r'. apply data_sources_nil. by apply source_cameras_trace_Forall. }
  assert (Hloop : ∀ model lpips_model cams batches acc r', data_sources
            (trace (for_in batches (eval_step model lpips_model bg cams) acc r'))
            = []).
  { intros. apply data_sources_nil. by apply eval_loop_events. }
  repeat case_match; cbn [trace];
    rewrite ?data_sources_app, ?Hfound, ?Hloop; done.
Qed.
Lemma flat_map_nil_Forall {A B} (f : A → list B) (l : list A) :
  Forall (λ x, f x = []) l → flat_map f l = [].
Proof. induction 1 as [|x l Hx _ IH]; simpl; [done|]. by rewrite Hx, IH. Qed.

Lemma observe_source_cameras {B} (f : event → list B) task dataset num_workers r :
  (∀ items shuffle batch_size nw, f (new_DataLoader items shuffle batch_size nw) = []) →
  flat_map f (trace (source_cameras_for task dataset num_workers r)) = [].
Proof.
  intros Hf. apply flat_map_nil_Forall. by apply source_cameras_trace_Forall.
Qed.

Lemma observe_loop {B} (f : event → list B) model lpips_model bg cameras
    batches acc r :
  (∀ fd, f (call_dataclass_to_cuda_ fd) = []) →
  (∀ fd, f (call_model model fd) = []) →
  (∀ fd render, f (call_eval_batch fd render bg lpips_model cameras) = []) →
  flat_map f
    (trace (for_in batches (eval_step model lpips_model bg cameras) acc r)) = [].
Proof.
  intros. apply flat_map_nil_Forall. by apply eval_loop_events.
Qed.

(** What the rounds of a finished loop show. *)
Lemma rounds_moved_batches model lpips_model bg cameras (rounds : list round) :
  moved_batches (flat_map (round_trace model lpips_model bg cameras) rounds) =
  map (λ rd, rd.1.1) rounds.
Proof. induction rounds as [|rd rounds IH]; simpl; [done|]. by f_equal. Qed.

Lemma rounds_eval_inputs model lpips_model bg cameras (rounds : list round) :
  eval_inputs (flat_map (round_trace model lpips_model bg cameras) rounds) =
  map dataclass_to_cuda_ (map (λ rd, rd.1.1) rounds).
Proof. induction rounds as [|rd rounds IH]; simpl; [done|]. by f_equal. Qed.

Lemma rounds_source_cameras model lpips_model bg cameras (rounds : list round) :
  source_cameras_passed
    (flat_map (round_trace model lpips_model bg cameras) rounds) =
  replicate (length rounds) cameras.
Proof. induction rounds as [|rd rounds IH]; simpl; [done|]. by f_equal. Qed.

(** The batches that enter the loop, whether or not it finishes. *)
Lemma eval_loop_inputs model lpips_model bg cameras batches :
  ∀ acc r,
    let looped := for_in batches (eval_step model lpips_model bg cameras) acc r in
    moved_batches (trace looped) `prefix_of` batches ∧
    model_inputs (trace looped)
      = map dataclass_to_cuda_ (moved_batches (trace looped)) ∧
    match value looped with
    | Ok _ =>
        moved_batches (trace looped) = batches ∧
        eval_inputs (trace looped) = model_inputs (trace looped)
    | Raise _ =>
        ∃ last, model_inputs (trace looped) = eval_inputs (trace looped) ++ [last]
    end.
Proof.
  induction batches as [|frame_data batches IH]; intros acc r; simpl.
  - by split_and!.
  - rewrite run_bind, eval_step_run.
    destruct (_ !! "implicitron_render") as [render|];
      cbn [value rng_after trace].
    + set (evaluated := eval_batch _ _ _ _ _ _).
      destruct (IH (acc ++ [evaluated.1]) evaluated.2) as (Hmoved & Hmodel & Hend).
      simpl. split_and!.
      * by apply prefix_cons.
      * by rewrite Hmodel.
      * destruct (value (for_in batches _ _ _)).
        -- destruct Hend as [-> ->]. done.
        -- destruct Hend as [last ->]. by exists last.
    + simpl. split_and!; [apply prefix_cons, prefix_nil|done|].
      by eexists.
Qed.

(** When the setup goes through and the model gives a render for every
    batch, the call gets through all rounds of the loop. *)
Lemma evaluate_all_rounds category task bg single_sequence_id num_workers
    path_manager r dataset_root test_dataset test_dataloader
    all_source_cameras image_size :
  let args := data_source_args category task single_sequence_id path_manager
                dataset_root in
  let found := source_cameras_for task test_dataset num_workers
                 (rng_loaded args) in
  let model := ModelDBIR_on_cuda (model_for image_size bg) in
  let lpips_model := {| net := "vgg"; lpips_device := CUDA |} in
  environ !! "CO3D_DATASET_ROOT" = Some dataset_root →
  test_dataset_of args = Some test_dataset →
  test_dataloader_of args = Some test_dataloader →
  value found = Ok all_source_cameras →
  image_width test_dataset = Some image_size →
  (∀ frame_data r', frame_data ∈ test_dataloader →
     is_Some ((ModelDBIR_forward model (dataclass_to_cuda_ frame_data) r').1
                !! "implicitron_render")) →
  ∃ rounds : list round,
    map (λ rd, rd.1.1) rounds = test_dataloader ∧
    trace (evaluate_dbir_for_category category task bg single_sequence_id
             num_workers path_manager r) =
      setup_trace args ++ trace found ++ modules_trace image_size bg
      ++ flat_map (round_trace model lpips_model bg all_source_cameras) rounds
      ++ [call_summarize_nvs_eval_results (map snd rounds) task].
Proof.
  intros args found model lpips_model Henv Hds Hdl Hfound Hwidth Hrender.
  rewrite evaluate_run, Henv. fold args. cbn zeta.
  rewrite Hds, Hdl. fold found. rewrite Hfound, Hwidth.
  fold model. fold lpips_model.
  pose proof (eval_loop_run model lpips_model bg all_source_cameras
                test_dataloader [] (rng_after found)) as Hloop.
  cbn zeta in Hloop.
  destruct (value (for_in test_dataloader _ _ _)) as [per_batch|e].
  - destruct Hloop as (rounds & Hbatches & -> & Htrace & _).
    exists rounds. cbn [trace app]. by rewrite Htrace.
  - destruct Hloop as (_ & frame_data & r' & Hin & Hnone).
    destruct (Hrender frame_data r' Hin) as [render Hsome]. congruence.
Qed.
(** The loaders of a call are those of its source-camera step. *)
Lemma evaluate_constructs_loader category task bg single_sequence_id
    num_workers path_manager r dataset_root test_dataset test_dataloader :
  let args := data_source_args category task single_sequence_id path_manager
                dataset_root in
  environ !! "CO3D_DATASET_ROOT" = Some dataset_root →
  test_dataset_of args = Some test_dataset →
  test_dataloader_of args = Some test_dataloader →
  loaders (trace (evaluate_dbir_for_category category task bg
                    single_sequence_id num_workers path_manager r)) =
  loaders (trace (source_cameras_for task test_dataset num_workers
                    (rng_loaded args))).
Proof.
  intros args Henv Hds Hdl. rewrite evaluate_run, Henv. fold args. cbn zeta.
  rewrite Hds, Hdl.
  assert (Hloop : ∀ model lpips_model cams batches acc r',
            loaders (trace (for_in batches
                              (eval_step model lpips_model bg cams) acc r')) = []).
  { intros. by apply observe_loop. }
  unfold loaders in *. repeat case_match; cbn [trace];
    rewrite !flat_map_app, ?Hloop; simpl; by rewrite ?app_nil_r.
Qed.
End EvaluateClaims.

Section EvaluateTheorems.
Context `{Library}.

(** C9. Every call seeds torch's global generator with 42 before anything
    else happens, and what the call then does (the value it returns or the
    exception it raises, the calls it makes, the generator state it leaves)
    is the same whatever state the generator was in when the call started:
    two calls with the same arguments in the same environment run alike. *)
Theorem evaluate_seeds_first category task bg single_sequence_id num_workers
    path_manager :
  ∃ outcome rng_left later_calls, ∀ r,
    evaluate_dbir_for_category category task bg single_sequence_id num_workers
      path_manager r =
    {| value := outcome;
       rng_after := rng_left;
       trace := torch_manual_seed 42 :: later_calls |}.
Proof.
  unfold evaluate_dbir_for_category. do 3 eexists. intros r.
  rewrite run_bind. cbn [seed_generator value rng_after trace app].
  reflexivity.
Qed.

(** C5. Whatever the arguments of a call, every data source it configures
    has test_on_train off and load_point_clouds on, asserts a single
    sequence exactly for the single-sequence task, carries the value of the
    task as task_str, and restricts the test sequence to the given id, or to
    -1 when none is given; a call configures one data source, or none when
    the environment does not name the dataset root. *)
Theorem evaluate_data_source_configuration category task bg single_sequence_id
    num_workers path_manager r :
  let run := evaluate_dbir_for_category category task bg single_sequence_id
               num_workers path_manager r in
  Forall
    (λ args,
       test_on_train args = false ∧
       load_point_clouds args = true ∧
       (assert_single_seq args = true ↔ task = SINGLE_SEQUENCE) ∧
       task_str args = Task_value task ∧
       test_restrict_sequence_id args =
         match single_sequence_id with Some id => id | None => -1 end)
    (data_sources (trace run)) ∧
  length (data_sources (trace run)) =
    match environ !! "CO3D_DATASET_ROOT" with Some _ => 1%nat | None => 0%nat end.
Proof.
  intros run. unfold run. rewrite evaluate_data_sources.
  destruct (environ !! "CO3D_DATASET_ROOT") as [dataset_root|]; [|by split].
  split; [|done]. constructor; [|done]. simpl. split_and!; try done.
  apply bool_decide_eq_true.
Qed.

(** C1. Suppose the setup of a call goes through (the environment names the
    dataset root, the data source has a test dataset with an image width
    and a test dataloader, the source cameras load) and the libraries
    answer with dictionaries that have the entries the driver reads.  Then
    the call goes through the batches of the test dataloader in the order
    they are yielded, one round each: it moves the batch to the GPU, runs
    the model on it and appends the one result of eval_batch.  The list it
    hands to summarize_nvs_eval_results has one result per batch, in that
    order, and the call returns the "results" entry of the summary. *)
Theorem evaluate_processes_batches_in_order category task bg single_sequence_id
    num_workers path_manager r dataset_root test_dataset test_dataloader
    all_source_cameras image_size :
  let args := data_source_args category task single_sequence_id path_manager
                dataset_root in
  let found := source_cameras_for task test_dataset num_workers
                 (rng_loaded args) in
  let model := ModelDBIR_on_cuda (model_for image_size bg) in
  let lpips_model := {| net := "vgg"; lpips_device := CUDA |} in
  let run := evaluate_dbir_for_category category task bg single_sequence_id
               num_workers path_manager r in
  environ !! "CO3D_DATASET_ROOT" = Some dataset_root →
  test_dataset_of args = Some test_dataset →
  test_dataloader_of args = Some test_dataloader →
  value found = Ok all_source_cameras →
  image_width test_dataset = Some image_size →
  (∀ frame_data r', frame_data ∈ test_dataloader →
     is_Some ((ModelDBIR_forward model (dataclass_to_cuda_ frame_data) r').1
                !! "implicitron_render")) →
  (∀ per_batch,
     is_Some ((summarize_nvs_eval_results per_batch task).2 !! "results")) →
  ∃ (rounds : list round) (results : Metrics),
    map (λ rd, rd.1.1) rounds = test_dataloader ∧
    Forall (round_computed model lpips_model bg all_source_cameras) rounds ∧
    trace run =
      setup_trace args ++ trace found ++ modules_trace image_size bg
      ++ flat_map (round_trace model lpips_model bg all_source_cameras) rounds
      ++ [call_summarize_nvs_eval_results (map snd rounds) task] ∧
    (summarize_nvs_eval_results (map snd rounds) task).2 !! "results"
      = Some results ∧
    value run = Ok results.
Proof.
  intros args found model lpips_model run Henv Hds Hdl Hfound Hwidth Hrender
    Hresults.
  unfold run. rewrite evaluate_run, Henv. fold args. cbn zeta.
  rewrite Hds, Hdl. fold found. rewrite Hfound, Hwidth.
  fold model. fold lpips_model.
  pose proof (eval_loop_run model lpips_model bg all_source_cameras
                test_dataloader [] (rng_after found)) as Hloop.
  cbn zeta in Hloop.
  destruct (value (for_in test_dataloader _ _ _)) as [per_batch|e].
  - destruct Hloop as (rounds & Hbatches & -> & Htrace & Hrounds).
    destruct (Hresults (map snd rounds)) as [results Hres].
    exists rounds, results. cbn [value trace app]. rewrite Htrace, Hres.
    by split_and!.
  - destruct Hloop as (_ & frame_data & r' & Hin & Hnone).
    destruct (Hrender frame_data r' Hin) as [render Hsome]. congruence.
Qed.
End EvaluateTheorems.


Section EvaluateErrors.
Context `{Library}.

(** With a test split at hand, the first error is out, the second is
    raised exactly when the source cameras were obtained and the dataset has
    no image width, and no module or batch precedes a ValueError. *)
Lemma evaluate_errors_with_test_split category task bg single_sequence_id
    num_workers path_manager r dataset_root test_dataset test_dataloader :
  let args := data_source_args category task single_sequence_id path_manager
                dataset_root in
  let found := source_cameras_for task test_dataset num_workers
                 (rng_loaded args) in
  let run := evaluate_dbir_for_category category task bg single_sequence_id
               num_workers path_manager r in
  environ !! "CO3D_DATASET_ROOT" = Some dataset_root →
  test_dataset_of args = Some test_dataset →
  test_dataloader_of args = Some test_dataloader →
  value run ≠ Raise (ValueError "must have a test dataset.") ∧
  (value run = Raise (ValueError "Image size should be set in the dataset") ↔
     is_Ok (value found) = true ∧ image_width test_dataset = None) ∧
  ((∃ msg, value run = Raise (ValueError msg)) →
     Forall (λ e, is_model_or_batch_event e = false) (trace run)).
Proof.
  intros args found run Henv Hds Hdl. unfold run.
  rewrite evaluate_run, Henv. fold args. cbn zeta. rewrite Hds, Hdl.
  fold found.
  pose proof (source_cameras_raises task test_dataset num_workers
                (rng_loaded args)) as Hraises. fold found in Hraises.
  assert (Hsetup : Forall (λ e, is_model_or_batch_event e = false)
                     (setup_trace args ++ trace found)).
  { apply Forall_app. split; [by repeat constructor|].
    by apply source_cameras_trace_Forall. }
  destruct (value found) as [cams|e].
  - destruct (image_width test_dataset) as [image_size|].
    + pose proof (eval_loop_run (ModelDBIR_on_cuda (model_for image_size bg))
                    {| net := "vgg"; lpips_device := CUDA |} bg cams
                    test_dataloader [] (rng_after found)) as Hloop.
      cbn zeta in Hloop.
      destruct (value (for_in test_dataloader _ _ _)) as [per_batch|e];
        cbn [value].
      * destruct (_ !! "results");
          (split_and!;
           [done | split; [done|intros [_ ?]; done] | intros [? ?]; done]).
      * destruct Hloop as [-> _]. split_and!;
          [done | split; [done|intros [_ ?]; done] | intros [? ?]; done].
    + cbn [value trace]. split_and!; [done | done | done].
  - cbn [value trace].
    destruct (Hraises _ eq_refl) as [-> | [-> | [-> | ->]]];
      (split_and!; [done | split; [done|intros [? _]; done] | done]).
Qed.

(** C3, as amended.  Once the environment names the dataset root, a call
    raises ValueError("must have a test dataset.") exactly when the data
    source has no test dataset or no test dataloader, and raises
    ValueError("Image size should be set in the dataset") exactly when the
    test split is there, the source cameras (loaded first, for the
    single-sequence task only) were obtained without an exception, and the
    test dataset has no image width; for the multi-sequence task that is
    exactly when the test split is there and its dataset has no image
    width.  A call that raises a ValueError has constructed no module and
    evaluated no batch.  Given a test split whose dataset has an image
    width, neither of the two errors is raised. *)
Theorem evaluate_value_errors category task bg single_sequence_id num_workers
    path_manager r dataset_root :
  let args := data_source_args category task single_sequence_id path_manager
                dataset_root in
  let run := evaluate_dbir_for_category category task bg single_sequence_id
               num_workers path_manager r in
  environ !! "CO3D_DATASET_ROOT" = Some dataset_root →
  (value run = Raise (ValueError "must have a test dataset.") ↔
     test_dataset_of args = None ∨ test_dataloader_of args = None) ∧
  (value run = Raise (ValueError "Image size should be set in the dataset") ↔
     ∃ test_dataset,
       test_dataset_of args = Some test_dataset ∧
       is_Some (test_dataloader_of args) ∧
       is_Ok (value (source_cameras_for task test_dataset num_workers
                       (rng_loaded args))) = true ∧
       image_width test_dataset = None) ∧
  ((∃ msg, value run = Raise (ValueError msg)) →
     Forall (λ e, is_model_or_batch_event e = false) (trace run)) ∧
  (task = MULTI_SEQUENCE →
     (value run = Raise (ValueError "Image size should be set in the dataset") ↔
        ∃ test_dataset,
          test_dataset_of args = Some test_dataset ∧
          is_Some (test_dataloader_of args) ∧
          image_width test_dataset = None)) ∧
  (∀ test_dataset image_size,
     test_dataset_of args = Some test_dataset →
     is_Some (test_dataloader_of args) →
     image_width test_dataset = Some image_size →
     value run ≠ Raise (ValueError "must have a test dataset.") ∧
     value run ≠ Raise (ValueError "Image size should be set in the dataset")).
Proof.
  intros args run Henv.
  destruct (test_dataset_of args) as [test_dataset|] eqn:Hds;
    [destruct (test_dataloader_of args) as [test_dataloader|] eqn:Hdl|].
  - destruct (evaluate_errors_with_test_split category task bg
                single_sequence_id num_workers path_manager r dataset_root
                test_dataset test_dataloader Henv Hds Hdl)
      as (Hfirst & Hsecond & Hquiet).
    fold args run in Hfirst, Hsecond, Hquiet. split_and!.
    + split; [done|]. intros [?|?]; done.
    + rewrite Hsecond. split.
      * intros [??]. exists test_dataset. by split_and!.
      * intros (? & [= <-] & _ & ? & ?). done.
    + done.
    + intros Htask. rewrite Hsecond. split.
      * intros [_ ?]. exists test_dataset. by split_and!.
      * intros (? & [= <-] & _ & ?). split; [|done].
        unfold args. by rewrite Htask.
    + intros ?? [= <-] _ Hwidth. split; [done|].
      rewrite Hsecond, Hwidth. intros [_ ?]. done.
  - unfold run. rewrite evaluate_run, Henv. fold args. cbn zeta.
    rewrite Hds, Hdl. cbn [value trace]. split_and!.
    + split; auto.
    + split; [done|]. intros (? & _ & [??] & _). done.
    + intros _. by repeat constructor.
    + intros _. split; [done|]. intros (? & _ & [??] & _). done.
    + intros ?? _ [??]. done.
  - unfold run. rewrite evaluate_run, Henv. fold args. cbn zeta.
    rewrite Hds. cbn [value trace]. split_and!.
    + split; auto.
    + split; [done|]. intros (? & ? & _). done.
    + intros _. by repeat constructor.
    + intros _. split; [done|]. intros (? & ? & _). done.
    + done.
Qed.
End EvaluateErrors.

Section EvaluateModules.
Context `{Library}.

(** C7. In every call that returns, the test dataset has an image width,
    and the modules constructed are, in this order: one ModelDBIR that
    renders square images of that width with the background colour of the
    caller and at most 100000 points, moved to the GPU, and one LPIPS module
    with the vgg network, moved to the GPU.  Every call of the model goes to
    that model on the GPU, and every call of eval_batch gets the colour of
    the caller and that LPIPS module on the GPU.  The colour a caller gets
    by default is black. *)
Theorem evaluate_modules category task bg single_sequence_id num_workers
    path_manager r results :
  let run := evaluate_dbir_for_category category task bg single_sequence_id
               num_workers path_manager r in
  value run = Ok results →
  default_bg_color = (0%Q, 0%Q, 0%Q) ∧
  ∃ dataset_root test_dataset image_size,
    environ !! "CO3D_DATASET_ROOT" = Some dataset_root ∧
    test_dataset_of (data_source_args category task single_sequence_id
                       path_manager dataset_root) = Some test_dataset ∧
    image_width test_dataset = Some image_size ∧
    List.filter is_module_event (trace run) =
      [ new_ModelDBIR {| render_image_width := image_size;
                         render_image_height := image_size;
                         bg_color := bg;
                         max_points := 100000;
                         model_device := CPU |};
        ModelDBIR_cuda {| render_image_width := image_size;
                          render_image_height := image_size;
                          bg_color := bg;
                          max_points := 100000;
                          model_device := CPU |};
        new_LPIPS "vgg";
        LPIPS_cuda {| net := "vgg"; lpips_device := CPU |} ] ∧
    Forall
      (uses_modules
         {| render_image_width := image_size;
            render_image_height := image_size;
            bg_color := bg;
            max_points := 100000;
            model_device := CUDA |}
         {| net := "vgg"; lpips_device := CUDA |} bg)
      (trace run).
Proof.
  intros run Hok. split; [done|]. unfold run in *. rewrite evaluate_run in *.
  destruct (environ !! "CO3D_DATASET_ROOT") as [dataset_root|]; [|done].
  set (args := data_source_args _ _ _ _ _) in *. cbn zeta in *.
  destruct (test_dataset_of args) as [test_dataset|] eqn:Hds; [|done].
  destruct (test_dataloader_of args) as [test_dataloader|]; [|done].
  set (found := source_cameras_for _ _ _ _) in *.
  destruct (value found) as [cams|e]; [|done].
  destruct (image_width test_dataset) as [image_size|] eqn:Hwidth; [|done].
  set (model := ModelDBIR_on_cuda (model_for image_size bg)) in *.
  set (lpips_model := {| net := "vgg"; lpips_device := CUDA |}) in *.
  set (looped := for_in _ _ _ _) in *.
  destruct (value looped) as [per_batch|e]; [|done]. cbn [value trace] in *.
  exists dataset_root, test_dataset, image_size. split_and!; [done..| |].
  - rewrite !List.filter_app.
    rewrite (filter_nil_Forall _ (trace found)), (filter_nil_Forall _ (trace looped)).
    + done.
    + by apply eval_loop_events.
    + by apply source_cameras_trace_Forall.
  - rewrite !Forall_app. split_and!.
    + by repeat constructor.
    + by apply source_cameras_trace_Forall.
    + by repeat constructor.
    + by apply eval_loop_events.
    + by repeat constructor.
Qed.

(** Whatever calls of eval_batch a run makes, they get the source cameras
    of the task; and the loader a run constructs is the one over the
    sequence of the first test frame. *)
Lemma source_cameras_of_every_call category task bg single_sequence_id num_workers
    path_manager r :
  let run := evaluate_dbir_for_category category task bg single_sequence_id
               num_workers path_manager r in
  (task = MULTI_SEQUENCE → Forall (passes_source_cameras None) (trace run)) ∧
  (task = SINGLE_SEQUENCE →
   ∀ dataset_root test_dataset first_entry,
     environ !! "CO3D_DATASET_ROOT" = Some dataset_root →
     test_dataset_of (data_source_args category task single_sequence_id
                        path_manager dataset_root) = Some test_dataset →
     frame_annots test_dataset !! 0%nat = Some first_entry →
     let name := sequence_name (frame_annotation first_entry) in
     Forall (loads_whole_sequence test_dataset name num_workers) (trace run) ∧
     (loads_in_one_batch →
      sequence_indices_in_order test_dataset name ≠ [] →
      Forall
        (passes_source_cameras (Some (known_cameras_of_sequence test_dataset name)))
        (trace run))).
Proof.
  intros run. unfold run. rewrite evaluate_run. split.
  - intros ->.
    destruct (environ !! "CO3D_DATASET_ROOT") as [dataset_root|];
      [|by repeat constructor].
    set (args := data_source_args _ _ _ _ _). cbn zeta.
    destruct (test_dataset_of args) as [test_dataset|];
      [|by repeat constructor].
    destruct (test_dataloader_of args) as [test_dataloader|];
      [|by repeat constructor].
    rewrite source_cameras_for_run. cbn [value rng_after trace].
    destruct (image_width test_dataset) as [image_size|];
      [|by repeat constructor].
    set (looped := for_in _ _ _ _).
    assert (Forall (passes_source_cameras None) (trace looped))
      by by apply eval_loop_events.
    destruct (value looped); cbn [trace]; rewrite !Forall_app;
      split_and!; done || by repeat constructor.
  - intros -> dataset_root test_dataset first_entry Henv Hds Hfirst.
    rewrite Henv. set (name := sequence_name (frame_annotation first_entry)).
    set (args := data_source_args _ _ _ _ _) in *. cbn zeta.
    rewrite Hds.
    destruct (test_dataloader_of args) as [test_dataloader|];
      [|split; intros; by repeat constructor].
    rewrite source_cameras_for_run, Hfirst. fold name. cbn zeta.
    cbn [value rng_after trace].
    set (found := _get_all_source_cameras _ _ _ _).
    assert (Hloader : Forall (loads_whole_sequence test_dataset name num_workers)
                        (trace found)).
    { unfold found. rewrite get_all_source_cameras_run. by repeat constructor. }
    assert (Hquiet : ∀ expected, Forall (passes_source_cameras expected)
                                   (trace found)).
    { intros. unfold found. rewrite get_all_source_cameras_run.
      by repeat constructor. }
    split.
    + destruct (value found) as [cams|e];
        [|cbn [trace]; rewrite Forall_app; split; done || by repeat constructor].
      destruct (image_width test_dataset) as [image_size|];
        [|cbn [trace]; rewrite Forall_app; split; done || by repeat constructor].
      set (looped := for_in _ _ _ _).
      assert (Forall (loads_whole_sequence test_dataset name num_workers)
                (trace looped)) by by apply eval_loop_events.
      destruct (value looped); cbn [trace]; rewrite !Forall_app;
        split_and!; done || by repeat constructor.
    + intros Hload Hne. unfold found at 1.
      rewrite (get_all_source_cameras_known _ _ _ _ Hload Hne).
      destruct (image_width test_dataset) as [image_size|];
        [|cbn [trace]; rewrite Forall_app; split; done || by repeat constructor].
      set (looped := for_in _ _ _ _).
      assert (Forall (passes_source_cameras
                        (Some (known_cameras_of_sequence test_dataset name)))
                (trace looped)) by by apply eval_loop_events.
      destruct (value looped); cbn [trace]; rewrite !Forall_app;
        split_and!; done || by repeat constructor.
Qed.
(** C8. For the multi-sequence task every call of eval_batch gets no
    source cameras, and a call that gets through its setup makes one call of
    eval_batch per batch of the test dataloader, each with no source
    cameras.  For the single-sequence task, let the sequence be the one of
    the first frame of the test dataset.  The one loader the call constructs
    is over the frames of that sequence in sequence order, unshuffled and
    with the whole sequence as one batch.  Where such a loader yields that
    one batch, the cameras loaded are those of the known frames of the
    sequence, in sequence order; every call of eval_batch gets exactly
    them; and a call that gets through its setup makes one call of
    eval_batch per batch of the test dataloader, each with these cameras. *)
Theorem evaluate_source_cameras category task bg single_sequence_id num_workers
    path_manager r :
  let run := evaluate_dbir_for_category category task bg single_sequence_id
               num_workers path_manager r in
  (task = MULTI_SEQUENCE →
   Forall (passes_source_cameras None) (trace run) ∧
   ∀ dataset_root test_dataset test_dataloader image_size,
     environ !! "CO3D_DATASET_ROOT" = Some dataset_root →
     test_dataset_of (data_source_args category task single_sequence_id
                        path_manager dataset_root) = Some test_dataset →
     test_dataloader_of (data_source_args category task single_sequence_id
                           path_manager dataset_root) = Some test_dataloader →
     image_width test_dataset = Some image_size →
     (∀ frame_data r', frame_data ∈ test_dataloader →
        is_Some ((ModelDBIR_forward (ModelDBIR_on_cuda (model_for image_size bg))
                    (dataclass_to_cuda_ frame_data) r').1
                   !! "implicitron_render")) →
     eval_inputs (trace run) = map dataclass_to_cuda_ test_dataloader ∧
     source_cameras_passed (trace run)
       = replicate (length test_dataloader) None) ∧
  (task = SINGLE_SEQUENCE →
   ∀ dataset_root test_dataset first_entry,
     environ !! "CO3D_DATASET_ROOT" = Some dataset_root →
     test_dataset_of (data_source_args category task single_sequence_id
                        path_manager dataset_root) = Some test_dataset →
     frame_annots test_dataset !! 0%nat = Some first_entry →
     let name := sequence_name (frame_annotation first_entry) in
     Forall (loads_whole_sequence test_dataset name num_workers) (trace run) ∧
     (∀ test_dataloader,
        test_dataloader_of (data_source_args category task single_sequence_id
                              path_manager dataset_root) = Some test_dataloader →
        loaders (trace run) =
          [map (getitem test_dataset)
             (sequence_indices_in_order test_dataset name)]) ∧
     (loads_in_one_batch →
      sequence_indices_in_order test_dataset name ≠ [] →
      value (source_cameras_for task test_dataset num_workers
               (rng_loaded (data_source_args category task single_sequence_id
                              path_manager dataset_root)))
        = Ok (Some (known_cameras_of_sequence test_dataset name)) ∧
      Forall
        (passes_source_cameras (Some (known_cameras_of_sequence test_dataset name)))
        (trace run) ∧
      ∀ test_dataloader image_size,
        test_dataloader_of (data_source_args category task single_sequence_id
                              path_manager dataset_root) = Some test_dataloader →
        image_width test_dataset = Some image_size →
        (∀ frame_data r', frame_data ∈ test_dataloader →
           is_Some ((ModelDBIR_forward
                       (ModelDBIR_on_cuda (model_for image_size bg))
                       (dataclass_to_cuda_ frame_data) r').1
                      !! "implicitron_render")) →
        eval_inputs (trace run) = map dataclass_to_cuda_ test_dataloader ∧
        source_cameras_passed (trace run)
          = replicate (length test_dataloader)
              (Some (known_cameras_of_sequence test_dataset name)))).
Proof.
  intros run.
  destruct (source_cameras_of_every_call category task bg single_sequence_id
              num_workers path_manager r) as [Hmulti Hsingle].
  fold run in Hmulti, Hsingle.
  assert (Hobserved : ∀ dataset_root test_dataset test_dataloader cams
              image_size,
            environ !! "CO3D_DATASET_ROOT" = Some dataset_root →
            test_dataset_of (data_source_args category task single_sequence_id
                               path_manager dataset_root) = Some test_dataset →
            test_dataloader_of (data_source_args category task
                                  single_sequence_id path_manager dataset_root)
              = Some test_dataloader →
            value (source_cameras_for task test_dataset num_workers
                     (rng_loaded (data_source_args category task
                                    single_sequence_id path_manager
                                    dataset_root))) = Ok cams →
            image_width test_dataset = Some image_size →
            (∀ frame_data r', frame_data ∈ test_dataloader →
               is_Some ((ModelDBIR_forward
                           (ModelDBIR_on_cuda (model_for image_size bg))
                           (dataclass_to_cuda_ frame_data) r').1
                          !! "implicitron_render")) →
            eval_inputs (trace run) = map dataclass_to_cuda_ test_dataloader ∧
            source_cameras_passed (trace run)
              = replicate (length test_dataloader) cams).
  { intros dataset_root test_dataset test_dataloader cams image_size Henv Hds
      Hdl Hfound Hwidth Hrender.
    destruct (evaluate_all_rounds category task bg single_sequence_id
                num_workers path_manager r dataset_root test_dataset
                test_dataloader cams image_size Henv Hds Hdl Hfound Hwidth
                Hrender) as (rounds & Hbatches & Htrace).
    unfold run. rewrite Htrace. unfold eval_inputs, source_cameras_passed.
    rewrite !flat_map_app, !observe_source_cameras by done.
    fold (eval_inputs (flat_map (round_trace
            (ModelDBIR_on_cuda (model_for image_size bg))
            {| net := "vgg"; lpips_device := CUDA |} bg cams) rounds)).
    fold (source_cameras_passed (flat_map (round_trace
            (ModelDBIR_on_cuda (model_for image_size bg))
            {| net := "vgg"; lpips_device := CUDA |} bg cams) rounds)).
    rewrite rounds_eval_inputs, rounds_source_cameras, Hbatches.
    simpl. rewrite !app_nil_r. split; [done|].
    by rewrite <- Hbatches, length_map. }
  split.
  - intros Htask. split; [by apply Hmulti|].
    intros dataset_root test_dataset test_dataloader image_size Henv Hds Hdl
      Hwidth Hrender.
    apply (Hobserved dataset_root test_dataset test_dataloader None image_size);
      try done.
    by rewrite Htask.
  - intros Htask dataset_root test_dataset first_entry Henv Hds Hfirst name.
    destruct (Hsingle Htask dataset_root test_dataset first_entry Henv Hds
                Hfirst) as [Hloader Hcameras]. fold name in Hloader, Hcameras.
    assert (Hfound : ∀ r', source_cameras_for task test_dataset num_workers r' =
              let found := _get_all_source_cameras test_dataset name
                             num_workers r' in
              {| value := match value found with
                          | Ok cameras => Ok (Some cameras)
                          | Raise e => Raise e
                          end;
                 rng_after := rng_after found;
                 trace := trace found |}).
    { intros r'. by rewrite source_cameras_for_run, Htask, Hfirst. }
    split_and!; [done| |].
    + intros test_dataloader Hdl. unfold run.
      rewrite (evaluate_constructs_loader category task bg single_sequence_id
                 num_workers path_manager r dataset_root test_dataset
                 test_dataloader Henv Hds Hdl).
      rewrite Hfound. cbn zeta. cbn [trace].
      by rewrite get_all_source_cameras_run.
    + intros Hload Hne.
      assert (Hknown : value (source_cameras_for task test_dataset num_workers
                (rng_loaded (data_source_args category task single_sequence_id
                               path_manager dataset_root)))
              = Ok (Some (known_cameras_of_sequence test_dataset name))).
      { rewrite Hfound. cbn zeta. cbn [value].
        by rewrite (get_all_source_cameras_known _ _ _ _ Hload Hne). }
      split_and!; [done|by apply Hcameras|].
      intros test_dataloader image_size Hdl Hwidth Hrender.
      by apply (Hobserved dataset_root test_dataset test_dataloader
                  (Some (known_cameras_of_sequence test_dataset name))
                  image_size).
Qed.
End EvaluateModules.

(** ** Runs of [main] *)

Section MainFacts.
Context `{Library}.

Lemma odict_lookup_setitem {V} (d : odict V) key v :
  odict_lookup (odict_setitem d key v) key = Some v.
Proof.
  induction d as [|[k v'] d IH]; simpl.
  - by rewrite decide_True.
  - destruct (decide (k = key)) as [->|Hne]; simpl.
    + by rewrite decide_True.
    + by rewrite decide_False.
Qed.

Lemma odict_setitem_setitem {V} (d : odict V) key v v' :
  odict_setitem (odict_setitem d key v) key v' = odict_setitem d key v'.
Proof.
  induction d as [|[k w] d IH]; simpl.
  - by rewrite decide_True.
  - destruct (decide (k = key)) as [->|Hne]; simpl.
    + by rewrite decide_True.
    + by rewrite decide_False, IH.
Qed.

Lemma odict_setitem_same {V} (d : odict V) key v :
  odict_lookup d key = Some v → odict_setitem d key v = d.
Proof.
  induction d as [|[k w] d IH]; simpl; [done|].
  destruct (decide (k = key)) as [->|Hne].
  - by intros [= ->].
  - intros Hd. by rewrite IH.
Qed.

Lemma print_aggregate_run task (task_results : odict (list Metrics)) results r :
  odict_lookup task_results task = Some results →
  _print_aggregate_results task task_results r =
  {| value := Ok (); rng_after := r; trace := aggregate_report task results |}.
Proof.
  intros Hlookup. unfold _print_aggregate_results, odict_getitem.
  rewrite Hlookup. reflexivity.
Qed.

Lemma main_step_run task category id (task_results : odict (list Metrics))
    so_far result r :
  value (evaluated task category id) = Ok result →
  odict_lookup task_results task = Some so_far →
  main_step task category id task_results r =
  {| value := Ok (odict_setitem task_results task (so_far ++ [result]));
     rng_after := rng_after (evaluated task category id);
     trace := trace (evaluated task category id)
              ++ result_report task category id result |}.
Proof.
  intros Hresult Hlookup. unfold main_step, odict_getitem.
  rewrite run_bind.
  rewrite (evaluate_independent _ _ _ _ _ _ r (manual_seed 42)).
  fold (evaluated task category id). rewrite Hresult, Hlookup.
  reflexivity.
Qed.

(** The calls of [main] for one category. *)
Lemma ids_loop_run task category ids results :
  Forall2 (λ id result, value (evaluated task category id) = Ok result)
    ids results →
  ∀ (task_results : odict (list Metrics)) so_far r,
    odict_lookup task_results task = Some so_far →
    ∃ r',
      for_in ids (main_step task category) task_results r =
      {| value := Ok (odict_setitem task_results task (so_far ++ results));
         rng_after := r';
         trace :=
           flat_map
             (λ '(id, result),
                trace (evaluated task category id)
                ++ result_report task category id result)
             (zip ids results) |}.
Proof.
  induction 1 as [|id result ids results Hresult _ IH];
    intros task_results so_far r Hlookup.
  - exists r. simpl. rewrite app_nil_r.
    by rewrite (odict_setitem_same _ _ _ Hlookup).
  - simpl. rewrite run_bind.
    rewrite (main_step_run _ _ _ _ _ _ _ Hresult Hlookup).
    cbn [value rng_after trace].
    destruct (IH (odict_setitem task_results task (so_far ++ [result]))
                (so_far ++ [result]) (rng_after (evaluated task category id))
                (odict_lookup_setitem _ _ _)) as [r' ->].
    exists r'. cbn [value rng_after trace].
    by rewrite odict_setitem_setitem, <- !app_assoc.
Qed.

(** One category: its calls, then the aggregate so far. *)
Lemma main_category_run task category results
    (task_results : odict (list Metrics)) so_far r :
  Forall2 (λ id result, value (evaluated task category id) = Ok result)
    (sequence_ids task) results →
  odict_lookup task_results task = Some so_far →
  ∃ r',
    main_category task category task_results r =
    {| value := Ok (odict_setitem task_results task (so_far ++ results));
       rng_after := r';
       trace := category_trace task category results
                ++ aggregate_report task (so_far ++ results) |}.
Proof.
  intros Hresults Hlookup. unfold main_category.
  replace (if decide (task = SINGLE_SEQUENCE) then [Some 0; Some 1] else [None])
    with (sequence_ids task) by by destruct task.
  rewrite run_bind.
  destruct (ids_loop_run _ _ _ _ Hresults task_results so_far r Hlookup)
    as [r1 ->]. cbn [value rng_after trace]. rewrite run_bind.
  rewrite (print_aggregate_run _ _ (so_far ++ results))
    by apply odict_lookup_setitem.
  exists r1. cbn [value rng_after trace mret M_ret].
  by rewrite app_nil_r.
Qed.

(** The rounds of [main] for one task, category by category. *)
Lemma categories_loop_run task wanted per_category :
  Forall2
    (λ category results,
       Forall2 (λ id result, value (evaluated task category id) = Ok result)
         (sequence_ids task) results)
    wanted per_category →
  ∀ (task_results : odict (list Metrics)) so_far r,
    odict_lookup task_results task = Some so_far →
    ∃ r',
      for_in wanted (main_category task) task_results r =
      {| value := Ok (odict_setitem task_results task
                        (so_far ++ concat per_category));
         rng_after := r';
         trace := task_trace task so_far (zip wanted per_category) |}.
Proof.
  induction 1 as [|category results wanted per_category Hresults _ IH];
    intros task_results so_far r Hlookup.
  - exists r. simpl. rewrite app_nil_r.
    by rewrite (odict_setitem_same _ _ _ Hlookup).
  - cbn [for_in]. rewrite run_bind.
    destruct (main_category_run _ _ _ _ _ r Hresults Hlookup) as [r1 ->].
    cbn [value rng_after trace].
    destruct (IH (odict_setitem task_results task (so_far ++ results))
                (so_far ++ results) r1 (odict_lookup_setitem _ _ _))
      as [r' ->].
    exists r'. cbn [value rng_after trace].
    rewrite odict_setitem_setitem, <- !app_assoc.
    reflexivity.
Qed.

Lemma main_task_run task per_category (task_results : odict (list Metrics)) r :
  evaluates_to task per_category →
  ∃ r',
    main_task task task_results r =
    {| value := Ok (odict_setitem task_results task (concat per_category));
       rng_after := r';
       trace := task_trace task [] (zip (categories task) per_category) |}.
Proof.
  intros Hresults. unfold main_task.
  replace (take (if decide (task = SINGLE_SEQUENCE) then 20%nat else 10%nat)
             CO3D_CATEGORIES)
    with (categories task) by by destruct task.
  cbn zeta.
  destruct (categories_loop_run _ _ _ Hresults
              (odict_setitem task_results task []) [] r
              (odict_lookup_setitem _ _ _)) as [r' ->].
  exists r'. by rewrite odict_setitem_setitem.
Qed.

Lemma main_tasks_run r single multi :
  evaluates_to SINGLE_SEQUENCE single →
  evaluates_to MULTI_SEQUENCE multi →
  ∃ r',
    main_tasks r =
    {| value := Ok [(SINGLE_SEQUENCE, concat single);
                    (MULTI_SEQUENCE, concat multi)];
       rng_after := r';
       trace :=
         task_trace SINGLE_SEQUENCE [] (zip (categories SINGLE_SEQUENCE) single)
         ++ task_trace MULTI_SEQUENCE [] (zip (categories MULTI_SEQUENCE) multi) |}.
Proof.
  intros Hsingle Hmulti. unfold main_tasks. cbn [for_in].
  rewrite run_bind.
  destruct (main_task_run _ _ [] r Hsingle) as [r1 ->].
  cbn [value rng_after trace]. rewrite run_bind.
  destruct (main_task_run _ _ (odict_setitem [] SINGLE_SEQUENCE (concat single))
              r1 Hmulti) as [r2 ->].
  exists r2. cbn [value rng_after trace mret M_ret].
  by rewrite app_nil_r.
Qed.

Lemma main_run r single multi :
  evaluates_to SINGLE_SEQUENCE single →
  evaluates_to MULTI_SEQUENCE multi →
  ∃ r',
    main r =
    {| value := Ok ();
       rng_after := r';
       trace :=
         task_trace SINGLE_SEQUENCE [] (zip (categories SINGLE_SEQUENCE) single)
         ++ task_trace MULTI_SEQUENCE [] (zip (categories MULTI_SEQUENCE) multi)
         ++ aggregate_report SINGLE_SEQUENCE (concat single)
         ++ aggregate_report MULTI_SEQUENCE (concat multi) |}.
Proof.
  intros Hsingle Hmulti. unfold main. rewrite run_bind.
  destruct (main_tasks_run r single multi Hsingle Hmulti) as [r1 ->].
  cbn [value rng_after trace]. exists r1.
  simpl. by rewrite <- !app_assoc.
Qed.
End MainFacts.

Section MainTheorems.
Context `{Library}.

Lemma evaluated_signature task category id result :
  value (evaluated task category id) = Ok result →
  map call_signature (data_sources (trace (evaluated task category id))) =
  [(category, bool_decide (task = SINGLE_SEQUENCE),
    match id with Some id => id | None => -1 end)].
Proof.
  unfold evaluated. rewrite evaluate_data_sources, evaluate_run.
  by destruct (environ !! "CO3D_DATASET_ROOT").
Qed.

Lemma category_trace_signatures task category ids results :
  Forall2 (λ id result, value (evaluated task category id) = Ok result)
    ids results →
  map call_signature
    (data_sources
       (flat_map
          (λ '(id, result),
             trace (evaluated task category id)
             ++ result_report task category id result)
          (zip ids results))) =
  map (λ id, (category, bool_decide (task = SINGLE_SEQUENCE),
              match id with Some id => id | None => -1 end)) ids.
Proof.
  induction 1 as [|id result ids results Hresult _ IH]; [done|].
  cbn [zip zip_with flat_map]. rewrite !data_sources_app, !map_app.
  rewrite (evaluated_signature _ _ _ _ Hresult), IH. reflexivity.
Qed.

Lemma task_trace_signatures task wanted per_category :
  Forall2
    (λ category results,
       Forall2 (λ id result, value (evaluated task category id) = Ok result)
         (sequence_ids task) results)
    wanted per_category →
  ∀ so_far,
    map call_signature
      (data_sources (task_trace task so_far (zip wanted per_category))) =
    flat_map
      (λ category,
         map (λ id, (category, bool_decide (task = SINGLE_SEQUENCE),
                     match id with Some id => id | None => -1 end))
           (sequence_ids task))
      wanted.
Proof.
  induction 1 as [|category results wanted per_category Hresults _ IH];
    intros so_far; [done|].
  cbn [zip zip_with task_trace flat_map].
  rewrite !data_sources_app, !map_app. unfold category_trace.
  rewrite (category_trace_signatures _ _ _ _ Hresults), IH. reflexivity.
Qed.

(** C2. Suppose every call of the schedule returns: for the
    single-sequence task the calls for the first 20 categories with the
    sequence ids 0 and 1, for the multi-sequence task the calls for the
    first 10 categories with no sequence id.  Then main returns; the calls
    it makes, read off the data sources they configure, are those of the
    single-sequence task, category by category with id 0 before id 1,
    followed by those of the multi-sequence task with no restriction (-1);
    and task_results ends up holding, under each task in this order, the
    results of its calls in call order. *)
Theorem main_schedule r (single multi : list (list Metrics)) :
  evaluates_to SINGLE_SEQUENCE single →
  evaluates_to MULTI_SEQUENCE multi →
  value (main_tasks r) = Ok [(SINGLE_SEQUENCE, concat single);
                             (MULTI_SEQUENCE, concat multi)] ∧
  value (main r) = Ok () ∧
  map call_signature (data_sources (trace (main r))) =
    flat_map (λ category, [(category, true, 0); (category, true, 1)])
      (take 20 CO3D_CATEGORIES)
    ++ map (λ category, (category, false, -1)) (take 10 CO3D_CATEGORIES).
Proof.
  intros Hsingle Hmulti.
  destruct (main_tasks_run r _ _ Hsingle Hmulti) as [r1 ->].
  destruct (main_run r _ _ Hsingle Hmulti) as [r2 ->].
  cbn [value trace]. split_and!; [done..|].
  rewrite !data_sources_app, !map_app.
  rewrite (task_trace_signatures _ _ _ Hsingle),
    (task_trace_signatures _ _ _ Hmulti).
  cbn. rewrite !app_nil_r. f_equal.
Qed.

(** C6. Under the same supposition, what main does is, for each task in
    turn and for each of its categories in turn: the calls for the category,
    each followed by the report of its result through
    pretty_print_nvs_metrics; then, once per category, the aggregate of all
    results the task has gathered so far, computed by aggregate_nvs_results
    and printed.  After both tasks, the aggregate of each task of
    task_results is computed and printed once more. *)
Theorem main_reports r (single multi : list (list Metrics)) :
  evaluates_to SINGLE_SEQUENCE single →
  evaluates_to MULTI_SEQUENCE multi →
  trace (main r) =
    task_trace SINGLE_SEQUENCE [] (zip (take 20 CO3D_CATEGORIES) single)
    ++ task_trace MULTI_SEQUENCE [] (zip (take 10 CO3D_CATEGORIES) multi)
    ++ aggregate_report SINGLE_SEQUENCE (concat single)
    ++ aggregate_report MULTI_SEQUENCE (concat multi).
Proof.
  intros Hsingle Hmulti.
  by destruct (main_run r _ _ Hsingle Hmulti) as [r' ->].
Qed.
End MainTheorems.

(** ** The snapshot test *)

Section TestDataSourceTheorems.
Variable Config : Type.
Variable get_default_args_ImplicitronDataSource : Config.
Variable OmegaConf_to_yaml : Config → bool → string.
Variable tests_dir : string.

(** C4. The test serializes the default configuration of
    ImplicitronDataSource to YAML with unsorted keys, and it passes exactly
    when the golden file data_source.yaml of the data directory exists and
    holds that string, character for character. *)
Theorem test_one_passes_iff_golden (files : gmap string string) :
  (test_one Config get_default_args_ImplicitronDataSource OmegaConf_to_yaml
     tests_dir files).1 = Ok ()
  ↔ files !! ((tests_dir +:+ "/implicitron/data") +:+ "/data_source.yaml")
    = Some (OmegaConf_to_yaml get_default_args_ImplicitronDataSource false).
Proof.
  unfold test_one, test_one_under, DEBUG, DATA_DIR.
  destruct (files !! _) as [golden|]; [|by split].
  destruct (decide (_ = golden)) as [->|Hne]; simpl; [by split|].
  split; [done|]. intros [= ->]. done.
Qed.

(** C10. The flag DEBUG of the test module is off.  Run with the flag on,
    the test first writes the freshly serialized configuration over the
    golden file and then passes, whatever the files held before. *)
Theorem test_one_debug_overwrites (files : gmap string string) :
  DEBUG = false ∧
  test_one_under Config get_default_args_ImplicitronDataSource
    OmegaConf_to_yaml tests_dir true files =
  (Ok (),
   <[(tests_dir +:+ "/implicitron/data") +:+ "/data_source.yaml" :=
       OmegaConf_to_yaml get_default_args_ImplicitronDataSource false]> files).
Proof.
  split; [done|]. unfold test_one_under, DATA_DIR.
  rewrite lookup_insert_eq. by rewrite decide_True.
Qed.
End TestDataSourceTheorems.

(** ** The statements at work on the sample world *)

Section OnTheSample.
Import Sample.

Lemma sample_loads_in_one_batch : loads_in_one_batch.
Proof.
  intros items num_workers r _. exists (collate items). simpl.
  by rewrite decide_True.
Defined.

Lemma sample_evaluates_single : evaluates_to SINGLE_SEQUENCE single_results.
Proof. repeat constructor. Defined.

Lemma sample_evaluates_multi : evaluates_to MULTI_SEQUENCE multi_results.
Proof. repeat constructor. Defined.

Lemma evaluate_processes_batches_in_order_witness :
  ∃ (rounds : list round) (results : Metrics),
    map (λ rd, rd.1.1) rounds = batches ∧
    value (evaluate_dbir_for_category "apple" SINGLE_SEQUENCE default_bg_color
             (Some 0) 16 None start) = Ok results.
Proof.
  destruct (evaluate_processes_batches_in_order "apple" SINGLE_SEQUENCE
              default_bg_color (Some 0) 16 None start "/data/co3d" dataset
              batches (Some [12; 10]%nat) 800)
    as (rounds & results & Hbatches & _ & _ & _ & Hvalue).
  - reflexivity.
  - reflexivity.
  - reflexivity.
  - reflexivity.
  - reflexivity.
  - intros frame_data r' _. by eexists.
  - intros per_batch. by eexists.
  - by exists rounds, results.
Defined.

Lemma evaluate_value_errors_witness :
  value (evaluate_dbir_for_category "nosplit" MULTI_SEQUENCE default_bg_color
           None 16 None start)
    = Raise (ValueError "must have a test dataset.") ∧
  value (evaluate_dbir_for_category "empty" MULTI_SEQUENCE default_bg_color
           None 16 None start)
    = Raise (ValueError "Image size should be set in the dataset") ∧
  value (evaluate_dbir_for_category "apple" MULTI_SEQUENCE default_bg_color
           None 16 None start)
    ≠ Raise (ValueError "Image size should be set in the dataset").
Proof.
  split_and!.
  - destruct (evaluate_value_errors "nosplit" MULTI_SEQUENCE default_bg_color
                None 16 None start "/data/co3d" eq_refl) as ([_ Hfirst] & _).
    apply Hfirst. by left.
  - destruct (evaluate_value_errors "empty" MULTI_SEQUENCE default_bg_color
                None 16 None start "/data/co3d" eq_refl)
      as (_ & _ & _ & Hmulti & _).
    apply (Hmulti eq_refl). exists empty_dataset.
    split_and!; [reflexivity | by eexists | reflexivity].
  - destruct (evaluate_value_errors "apple" MULTI_SEQUENCE default_bg_color
                None 16 None start "/data/co3d" eq_refl)
      as (_ & _ & _ & _ & Hwidth).
    apply (Hwidth dataset 800); [reflexivity | by eexists | reflexivity].
Defined.

Lemma evaluate_modules_witness :
  List.filter is_module_event
    (trace (evaluate_dbir_for_category "banana" MULTI_SEQUENCE
              (1%Q, 1%Q, 1%Q) None 16 None start)) =
  [ new_ModelDBIR (model_for 800 (1%Q, 1%Q, 1%Q));
    ModelDBIR_cuda (model_for 800 (1%Q, 1%Q, 1%Q));
    new_LPIPS "vgg";
    LPIPS_cuda {| net := "vgg"; lpips_device := CPU |} ].
Proof.
  destruct (evaluate_modules "banana" MULTI_SEQUENCE (1%Q, 1%Q, 1%Q) None 16
              None start [45; 46; 50])
    as (_ & dataset_root & test_dataset & image_size & _ & Hds & Hwidth
        & Hmodules & _); [reflexivity|].
  injection Hds as <-. injection Hwidth as <-. exact Hmodules.
Defined.

Lemma evaluate_source_cameras_witness :
  loaders (trace (evaluate_dbir_for_category "apple" SINGLE_SEQUENCE
                    default_bg_color (Some 1) 16 None start))
    = [map (getitem dataset) [2; 0; 1]%nat] ∧
  source_cameras_passed
    (trace (evaluate_dbir_for_category "apple" SINGLE_SEQUENCE
              default_bg_color (Some 1) 16 None start))
    = [Some [12; 10]%nat; Some [12; 10]%nat] ∧
  source_cameras_passed
    (trace (evaluate_dbir_for_category "apple" MULTI_SEQUENCE
              default_bg_color None 16 None start))
    = [None; None].
Proof.
  split_and!.
  - destruct (evaluate_source_cameras "apple" SINGLE_SEQUENCE default_bg_color
                (Some 1) 16 None start) as [_ Hsingle].
    destruct (Hsingle eq_refl "/data/co3d" dataset
                {| subset := Some "test";
                   frame_annotation := {| sequence_name := "seq0" |} |})
      as (_ & Hloader & _); [reflexivity..|].
    apply (Hloader batches). reflexivity.
  - destruct (evaluate_source_cameras "apple" SINGLE_SEQUENCE default_bg_color
                (Some 1) 16 None start) as [_ Hsingle].
    destruct (Hsingle eq_refl "/data/co3d" dataset
                {| subset := Some "test";
                   frame_annotation := {| sequence_name := "seq0" |} |})
      as (_ & _ & Hcameras); [reflexivity..|].
    destruct (Hcameras sample_loads_in_one_batch) as (_ & _ & Hpassed);
      [done|].
    destruct (Hpassed batches 800) as [_ Hall];
      [reflexivity | reflexivity | intros frame_data r' _; by eexists|].
    exact Hall.
  - destruct (evaluate_source_cameras "apple" MULTI_SEQUENCE default_bg_color
                None 16 None start) as [Hmulti _].
    destruct (Hmulti eq_refl) as [_ Hpassed].
    destruct (Hpassed "/data/co3d" dataset batches 800) as [_ Hall];
      [reflexivity | reflexivity | reflexivity | reflexivity
      | intros frame_data r' _; by eexists|].
    exact Hall.
Defined.

Lemma main_schedule_witness :
  value (main_tasks start) =
    Ok [(SINGLE_SEQUENCE,
         [[46; 47]; [46; 47]; [46; 47]; [46; 47]; [46; 47; 51]; [46; 47; 51]]);
        (MULTI_SEQUENCE, [[45; 46]; [45; 46]; [45; 46; 50]])] ∧
  map call_signature (data_sources (trace (main start))) =
    [ ("apple", true, 0); ("apple", true, 1);
      ("backpack", true, 0); ("backpack", true, 1);
      ("banana", true, 0); ("banana", true, 1);
      ("apple", false, -1); ("backpack", false, -1); ("banana", false, -1) ].
Proof.
  destruct (main_schedule start single_results multi_results
              sample_evaluates_single sample_evaluates_multi)
    as (Hresults & _ & Hcalls).
  by split.
Defined.

Lemma main_reports_witness :
  trace (main start) =
    task_trace SINGLE_SEQUENCE [] (zip CO3D_CATEGORIES single_results)
    ++ task_trace MULTI_SEQUENCE [] (zip CO3D_CATEGORIES multi_results)
    ++ aggregate_report SINGLE_SEQUENCE (concat single_results)
    ++ aggregate_report MULTI_SEQUENCE (concat multi_results).
Proof.
  exact (main_reports start single_results multi_results
           sample_evaluates_single sample_evaluates_multi).
Defined.

(** C3, as it was stated, fails on a test dataset without frames: for the
    single-sequence task the call looks up the first frame before it looks
    at the image width, so the missing width goes unreported and the call
    raises IndexError, not ValueError. *)
Lemma value_error_missed_on_empty_dataset :
  let args := data_source_args "empty" SINGLE_SEQUENCE (Some 0) None
                "/data/co3d" in
  environ !! "CO3D_DATASET_ROOT" = Some "/data/co3d" ∧
  test_dataset_of args = Some empty_dataset ∧
  is_Some (test_dataloader_of args) ∧
  image_width empty_dataset = None ∧
  value (evaluate_dbir_for_category "empty" SINGLE_SEQUENCE default_bg_color
           (Some 0) 16 None start)
    = Raise (IndexError "list index out of range") ∧
  ¬ ∃ msg,
      value (evaluate_dbir_for_category "empty" SINGLE_SEQUENCE
               default_bg_color (Some 0) 16 None start)
      = Raise (ValueError msg).
Proof.
  split_and!; [reflexivity | reflexivity | by eexists | reflexivity
              | reflexivity | intros [msg Hmsg]; discriminate Hmsg].
Qed.
End OnTheSample.

(** ** Further properties of [evaluate_dbir_for_category] *)

Section EvaluateObserved.
Context `{Library}.

(** X1. Without CO3D_DATASET_ROOT in the environment a call seeds the
    generator, raises KeyError for that name, and does nothing else: no data
    source is configured and nothing is loaded. *)
Theorem evaluate_without_dataset_root category task bg single_sequence_id
    num_workers path_manager r :
  environ !! "CO3D_DATASET_ROOT" = None →
  evaluate_dbir_for_category category task bg single_sequence_id num_workers
    path_manager r =
  {| value := Raise (KeyError "CO3D_DATASET_ROOT");
     rng_after := manual_seed 42;
     trace := [torch_manual_seed 42] |}.
Proof. intros Henv. by rewrite evaluate_run, Henv. Qed.

(** X2. Whatever a call raises on its own account is one of nine
    exceptions: the three KeyErrors for the dataset root, the render and the
    results, the two ValueErrors the function states, the two ValueErrors of
    unpacking the source-camera loader, and the two IndexErrors for the
    first frame and for a camera index. *)
Theorem evaluate_raises_own_exceptions category task bg single_sequence_id
    num_workers path_manager r :
  match value (evaluate_dbir_for_category category task bg single_sequence_id
                 num_workers path_manager r) with
  | Ok _ => True
  | Raise e => e ∈ own_exceptions
  end.
Proof.
  rewrite evaluate_run. unfold own_exceptions.
  destruct (environ !! "CO3D_DATASET_ROOT") as [dataset_root|];
    [|cbn [value]; rewrite !elem_of_cons; tauto].
  set (args := data_source_args _ _ _ _ _). cbn zeta.
  destruct (test_dataset_of args) as [test_dataset|];
    [|cbn [value]; rewrite !elem_of_cons; tauto].
  destruct (test_dataloader_of args) as [test_dataloader|];
    [|cbn [value]; rewrite !elem_of_cons; tauto].
  set (found := source_cameras_for _ _ _ _).
  pose proof (source_cameras_raises task test_dataset num_workers
                (rng_loaded args)) as Hraises. fold found in Hraises.
  destruct (value found) as [cams|e].
  - destruct (image_width test_dataset) as [image_size|];
      [|cbn [value]; rewrite !elem_of_cons; tauto].
    pose proof (eval_loop_run (ModelDBIR_on_cuda (model_for image_size bg))
                  {| net := "vgg"; lpips_device := CUDA |} bg cams
                  test_dataloader [] (rng_after found)) as Hloop.
    cbn zeta in Hloop.
    destruct (value (for_in test_dataloader _ _ _)) as [per_batch|e];
      cbn [value].
    + destruct (_ !! "results"); [done|]. rewrite !elem_of_cons; tauto.
    + destruct Hloop as [-> _]. rewrite !elem_of_cons; tauto.
  - cbn [value]. rewrite !elem_of_cons.
    destruct (Hraises _ eq_refl) as [-> | [-> | [-> | ->]]]; tauto.
Qed.

(** X3. The generator is seeded exactly once in a call, with 42, however
    the call ends. *)
Theorem evaluate_seeds_once category task bg single_sequence_id num_workers
    path_manager r :
  seeds (trace (evaluate_dbir_for_category category task bg single_sequence_id
                  num_workers path_manager r)) = [42].
Proof.
  rewrite evaluate_run. unfold seeds. cbn zeta.
  repeat case_match; cbn [trace]; rewrite ?flat_map_app;
    rewrite ?observe_source_cameras, ?observe_loop by done; done.
Qed.
End EvaluateObserved.

Section EvaluateInvariants.
Context `{Library}.

(** X4. In every call, finished or not: the batches moved to the GPU are
    the first batches of the test dataloader, in the order it yields them;
    each of them is given to the model after the move; and eval_batch gets
    the batches of the model in the same order, all of them, or all but the
    last one in the call that raises KeyError for the render of that batch.
    A call that returns has moved every batch of the test dataloader. *)
Theorem evaluate_takes_batches_in_order category task bg single_sequence_id
    num_workers path_manager r :
  let run := evaluate_dbir_for_category category task bg single_sequence_id
               num_workers path_manager r in
  let events := trace run in
  let yielded :=
    default []
      (dataset_root ← environ !! "CO3D_DATASET_ROOT";
       test_dataloader_of (data_source_args category task single_sequence_id
                             path_manager dataset_root)) in
  moved_batches events `prefix_of` yielded ∧
  model_inputs events = map dataclass_to_cuda_ (moved_batches events) ∧
  (eval_inputs events = model_inputs events ∨
   ∃ last, model_inputs events = eval_inputs events ++ [last] ∧
           value run = Raise (KeyError "implicitron_render")) ∧
  (is_Ok (value run) = true → moved_batches events = yielded).
Proof.
  intros run events yielded. unfold yielded, events, run.
  rewrite evaluate_run.
  destruct (environ !! "CO3D_DATASET_ROOT") as [dataset_root|];
    [|split_and!; [apply prefix_nil|done|by left|done]].
  cbn [mbind option_bind]. set (args := data_source_args _ _ _ _ _). cbn zeta.
  destruct (test_dataset_of args) as [test_dataset|];
    [|split_and!; [apply prefix_nil|done|by left|done]].
  destruct (test_dataloader_of args) as [test_dataloader|];
    [|split_and!; [apply prefix_nil|done|by left|done]].
  set (found := source_cameras_for _ _ _ _).
  assert (Hmoved : moved_batches (trace found) = [])
    by by apply observe_source_cameras.
  assert (Hmodel : model_inputs (trace found) = [])
    by by apply observe_source_cameras.
  assert (Heval : eval_inputs (trace found) = [])
    by by apply observe_source_cameras.
  unfold moved_batches, model_inputs, eval_inputs in *.
  destruct (value found) as [cams|e];
    [|cbn [value trace]; rewrite !flat_map_app, Hmoved, Hmodel, Heval;
      split_and!; [apply prefix_nil|done|by left|done]].
  destruct (image_width test_dataset) as [image_size|];
    [|cbn [value trace]; rewrite !flat_map_app, Hmoved, Hmodel, Heval;
      split_and!; [apply prefix_nil|done|by left|done]].
  set (looped := for_in _ _ _ _).
  destruct (eval_loop_inputs (ModelDBIR_on_cuda (model_for image_size bg))
              {| net := "vgg"; lpips_device := CUDA |} bg cams test_dataloader
              [] (rng_after found)) as (Hloop1 & Hloop2 & Hloop3).
  pose proof (eval_loop_run (ModelDBIR_on_cuda (model_for image_size bg))
                {| net := "vgg"; lpips_device := CUDA |} bg cams
                test_dataloader [] (rng_after found)) as Hraised.
  cbn zeta in Hraised.
  fold looped in Hloop1, Hloop2, Hloop3, Hraised.
  unfold moved_batches, model_inputs, eval_inputs in *.
  destruct (value looped) as [per_batch|e]; cbn [value trace default];
    rewrite !flat_map_app, Hmoved, Hmodel, Heval; simpl; rewrite ?app_nil_r.
  - destruct Hloop3 as [Hall Hsame]. split_and!; [done|done|by left|done].
  - destruct Hloop3 as [last Hlast]. destruct Hraised as [-> _].
    split_and!; [done|done| |done]. right. by exists last.
Qed.

(** X5. summarize_nvs_eval_results is called at most once in a call, for
    the task of the call and with exactly one result per batch of the test
    dataloader: it is called when and only when the call gets through all
    batches, which is the case for every call that returns and for the call
    that then finds no "results" entry.  A call that raises anything else
    has not summarized. *)
Theorem evaluate_summarizes_all_batches category task bg single_sequence_id
    num_workers path_manager r :
  let run := evaluate_dbir_for_category category task bg single_sequence_id
               num_workers path_manager r in
  (summarized (trace run) = [] ∧
   ∃ e, value run = Raise e ∧ e ≠ KeyError "results") ∨
  (∃ dataset_root test_dataloader per_batch,
     environ !! "CO3D_DATASET_ROOT" = Some dataset_root ∧
     test_dataloader_of (data_source_args category task single_sequence_id
                           path_manager dataset_root) = Some test_dataloader ∧
     summarized (trace run) = [(per_batch, task)] ∧
     length per_batch = length test_dataloader ∧
     (is_Ok (value run) = true ∨ value run = Raise (KeyError "results"))).
Proof.
  intros run. unfold run. rewrite evaluate_run.
  destruct (environ !! "CO3D_DATASET_ROOT") as [dataset_root|];
    [|left; split; [done|by eexists]].
  set (args := data_source_args _ _ _ _ _). cbn zeta.
  destruct (test_dataset_of args) as [test_dataset|];
    [|left; split; [done|by eexists]].
  destruct (test_dataloader_of args) as [test_dataloader|] eqn:Hdl;
    [|left; split; [done|by eexists]].
  set (found := source_cameras_for _ _ _ _).
  pose proof (source_cameras_raises task test_dataset num_workers
                (rng_loaded args)) as Hraises. fold found in Hraises.
  assert (Hfound : summarized (trace found) = [])
    by by apply observe_source_cameras.
  unfold summarized in *.
  destruct (value found) as [cams|e].
  - destruct (image_width test_dataset) as [image_size|].
    + set (looped := for_in _ _ _ _).
      pose proof (eval_loop_run (ModelDBIR_on_cuda (model_for image_size bg))
                    {| net := "vgg"; lpips_device := CUDA |} bg cams
                    test_dataloader [] (rng_after found)) as Hloop.
      cbn zeta in Hloop. fold looped in Hloop.
      assert (Hquiet : flat_map
                (λ e, match e with
                      | call_summarize_nvs_eval_results per_batch task =>
                          [(per_batch, task)]
                      | _ => []
                      end) (trace looped) = []) by by apply observe_loop.
      destruct (value looped) as [per_batch|e]; cbn [value trace].
      * right. destruct Hloop as (rounds & Hbatches & -> & _ & _).
        exists dataset_root, test_dataloader, (map snd rounds).
        rewrite !flat_map_app, Hfound, Hquiet. split_and!; [done..| |].
        -- rewrite <- Hbatches. by rewrite !length_map.
        -- destruct (_ !! "results"); [by left|by right].
      * left. destruct Hloop as [-> _].
        rewrite !flat_map_app, Hfound, Hquiet. split; [done|by eexists].
    + left. cbn [value trace]. rewrite !flat_map_app, Hfound.
      split; [done|by eexists].
  - left. cbn [value trace]. rewrite !flat_map_app, Hfound.
    split; [done|]. exists e. split; [done|].
    destruct (Hraises _ eq_refl) as [-> | [-> | [-> | ->]]]; done.
Qed.

(** X6. A call constructs at most one DataLoader of its own, and none for
    the multi-sequence task; the one of the single-sequence task is over the
    frames of the sequence of the first test frame, in sequence order. *)
Theorem evaluate_constructs_one_loader category task bg single_sequence_id
    num_workers path_manager r :
  let run := evaluate_dbir_for_category category task bg single_sequence_id
               num_workers path_manager r in
  loaders (trace run) = [] ∨
  ∃ dataset_root test_dataset first_entry,
    task = SINGLE_SEQUENCE ∧
    environ !! "CO3D_DATASET_ROOT" = Some dataset_root ∧
    test_dataset_of (data_source_args category task single_sequence_id
                       path_manager dataset_root) = Some test_dataset ∧
    frame_annots test_dataset !! 0%nat = Some first_entry ∧
    loaders (trace run) =
      [map (getitem test_dataset)
         (sequence_indices_in_order test_dataset
            (sequence_name (frame_annotation first_entry)))].
Proof.
  intros run. unfold run. rewrite evaluate_run.
  destruct (environ !! "CO3D_DATASET_ROOT") as [dataset_root|]; [|by left].
  set (args := data_source_args _ _ _ _ _). cbn zeta.
  destruct (test_dataset_of args) as [test_dataset|] eqn:Hds; [|by left].
  destruct (test_dataloader_of args) as [test_dataloader|]; [|by left].
  set (found := source_cameras_for _ _ _ _).
  assert (Hloop : ∀ model lpips_model cams batches acc r',
            loaders (trace (for_in batches
                              (eval_step model lpips_model bg cams) acc r')) = []).
  { intros. by apply observe_loop. }
  match goal with
  | |- loaders (trace ?M) = [] ∨ _ =>
      assert (Hall : loaders (trace M) = loaders (trace found))
  end.
  { unfold loaders in *. repeat case_match; cbn [trace];
      rewrite !flat_map_app, ?Hloop; simpl; by rewrite ?app_nil_r. }
  rewrite Hall. subst found.
  destruct (source_cameras_trace task test_dataset num_workers (rng_loaded args))
    as [Hnone|(first_entry & Htask & Hfirst & Hone)].
  - left. by rewrite Hnone.
  - right. exists dataset_root, test_dataset, first_entry.
    split_and!; [done..|]. cbn zeta in Hone. by rewrite Hone.
Qed.
End EvaluateInvariants.


(** ** Runs of [main] that fail *)

Section MainFailures.
Context `{Library}.

Lemma main_step_fails task category id (task_results : odict (list Metrics))
    e r :
  value (evaluated task category id) = Raise e →
  main_step task category id task_results r =
  {| value := Raise e;
     rng_after := rng_after (evaluated task category id);
     trace := trace (evaluated task category id) |}.
Proof.
  intros Hfails. unfold main_step. rewrite run_bind.
  rewrite (evaluate_independent _ _ _ _ _ _ r (manual_seed 42)).
  fold (evaluated task category id). by rewrite Hfails.
Qed.

Lemma ids_loop_fails task category ids_done results id ids_rest e :
  Forall2 (λ id result, value (evaluated task category id) = Ok result)
    ids_done results →
  value (evaluated task category id) = Raise e →
  ∀ (task_results : odict (list Metrics)) so_far r,
    odict_lookup task_results task = Some so_far →
    ∃ r',
      for_in (ids_done ++ id :: ids_rest) (main_step task category)
        task_results r =
      {| value := Raise e;
         rng_after := r';
         trace := partial_category_trace task category ids_done results
                  ++ trace (evaluated task category id) |}.
Proof.
  intros Hdone Hfails.
  induction Hdone as [|id' result ids_done results Hresult _ IH];
    intros task_results so_far r Hlookup.
  - eexists. cbn [app for_in]. rewrite run_bind.
    by rewrite (main_step_fails _ _ _ _ _ _ Hfails).
  - cbn [app for_in]. rewrite run_bind.
    rewrite (main_step_run _ _ _ _ _ _ _ Hresult Hlookup).
    cbn [value rng_after trace].
    destruct (IH (odict_setitem task_results task (so_far ++ [result]))
                (so_far ++ [result]) (rng_after (evaluated task category id'))
                (odict_lookup_setitem _ _ _)) as [r' ->].
    exists r'. cbn [value rng_after trace]. unfold partial_category_trace.
    cbn [zip zip_with flat_map]. by rewrite <- !app_assoc.
Qed.

Lemma main_category_fails task category ids_done results id ids_rest e
    (task_results : odict (list Metrics)) so_far r :
  sequence_ids task = ids_done ++ id :: ids_rest →
  Forall2 (λ id result, value (evaluated task category id) = Ok result)
    ids_done results →
  value (evaluated task category id) = Raise e →
  odict_lookup task_results task = Some so_far →
  ∃ r',
    main_category task category task_results r =
    {| value := Raise e;
       rng_after := r';
       trace := partial_category_trace task category ids_done results
                ++ trace (evaluated task category id) |}.
Proof.
  intros Hids Hdone Hfails Hlookup. unfold main_category.
  replace (if decide (task = SINGLE_SEQUENCE) then [Some 0; Some 1] else [None])
    with (sequence_ids task) by by destruct task.
  rewrite Hids, run_bind.
  destruct (ids_loop_fails _ _ _ _ _ ids_rest _ Hdone Hfails task_results
              so_far r Hlookup) as [r' ->].
  by exists r'.
Qed.

Lemma categories_loop_fails task cats_done per_category category cats_rest
    ids_done results id ids_rest e :
  Forall2
    (λ category results,
       Forall2 (λ id result, value (evaluated task category id) = Ok result)
         (sequence_ids task) results)
    cats_done per_category →
  sequence_ids task = ids_done ++ id :: ids_rest →
  Forall2 (λ id result, value (evaluated task category id) = Ok result)
    ids_done results →
  value (evaluated task category id) = Raise e →
  ∀ (task_results : odict (list Metrics)) so_far r,
    odict_lookup task_results task = Some so_far →
    ∃ r',
      for_in (cats_done ++ category :: cats_rest) (main_category task)
        task_results r =
      {| value := Raise e;
         rng_after := r';
         trace := task_trace task so_far (zip cats_done per_category)
                  ++ partial_category_trace task category ids_done results
                  ++ trace (evaluated task category id) |}.
Proof.
  intros Hcats Hids Hdone Hfails.
  induction Hcats as [|category' results' cats_done per_category Hresults _ IH];
    intros task_results so_far r Hlookup.
  - cbn [app for_in]. rewrite run_bind.
    destruct (main_category_fails _ _ _ _ _ _ _ task_results so_far r Hids
                Hdone Hfails Hlookup) as [r' ->].
    by exists r'.
  - cbn [app for_in]. rewrite run_bind.
    destruct (main_category_run _ _ _ _ _ r Hresults Hlookup) as [r1 ->].
    cbn [value rng_after trace].
    destruct (IH (odict_setitem task_results task (so_far ++ results'))
                (so_far ++ results') r1 (odict_lookup_setitem _ _ _))
      as [r' ->].
    exists r'. cbn [value rng_after trace zip zip_with task_trace].
    by rewrite <- !app_assoc.
Qed.

Lemma main_task_fails task cats_done per_category category cats_rest
    ids_done results id ids_rest e (task_results : odict (list Metrics)) r :
  categories task = cats_done ++ category :: cats_rest →
  Forall2
    (λ category results,
       Forall2 (λ id result, value (evaluated task category id) = Ok result)
         (sequence_ids task) results)
    cats_done per_category →
  sequence_ids task = ids_done ++ id :: ids_rest →
  Forall2 (λ id result, value (evaluated task category id) = Ok result)
    ids_done results →
  value (evaluated task category id) = Raise e →
  ∃ r',
    main_task task task_results r =
    {| value := Raise e;
       rng_after := r';
       trace := task_trace task [] (zip cats_done per_category)
                ++ partial_category_trace task category ids_done results
                ++ trace (evaluated task category id) |}.
Proof.
  intros Hsplit Hcats Hids Hdone Hfails. unfold main_task.
  replace (take (if decide (task = SINGLE_SEQUENCE) then 20%nat else 10%nat)
             CO3D_CATEGORIES)
    with (categories task) by by destruct task.
  cbn zeta. rewrite Hsplit.
  apply (categories_loop_fails _ _ _ _ _ _ _ _ _ _ Hcats Hids Hdone Hfails
           (odict_setitem task_results task []) [] r
           (odict_lookup_setitem _ _ _)).
Qed.

(** X9. main stops at the first call that fails in the single-sequence
    task: it raises the exception of that call, having made the calls before
    it and printed their reports and the aggregates of the categories that
    were completed; nothing is printed after the failing call, and the
    multi-sequence task is not started. *)
Theorem main_stops_in_single_sequence r cats_done per_category category
    cats_rest ids_done results id ids_rest e :
  categories SINGLE_SEQUENCE = cats_done ++ category :: cats_rest →
  Forall2
    (λ category results,
       Forall2 (λ id result,
                  value (evaluated SINGLE_SEQUENCE category id) = Ok result)
         (sequence_ids SINGLE_SEQUENCE) results)
    cats_done per_category →
  sequence_ids SINGLE_SEQUENCE = ids_done ++ id :: ids_rest →
  Forall2 (λ id result,
             value (evaluated SINGLE_SEQUENCE category id) = Ok result)
    ids_done results →
  value (evaluated SINGLE_SEQUENCE category id) = Raise e →
  value (main r) = Raise e ∧
  trace (main r) =
    task_trace SINGLE_SEQUENCE [] (zip cats_done per_category)
    ++ partial_category_trace SINGLE_SEQUENCE category ids_done results
    ++ trace (evaluated SINGLE_SEQUENCE category id).
Proof.
  intros Hsplit Hcats Hids Hdone Hfails. unfold main, main_tasks.
  cbn [for_in]. rewrite run_bind, run_bind.
  destruct (main_task_fails _ _ _ _ cats_rest _ _ _ ids_rest _ [] r Hsplit Hcats
              Hids Hdone Hfails) as [r' ->].
  by cbn [value rng_after trace].
Qed.

(** X10. When all calls of the single-sequence task return and a call of
    the multi-sequence task fails, main raises the exception of that call
    after the whole single-sequence task and the multi-sequence calls before
    the failing one; the closing aggregates are never printed. *)
Theorem main_stops_in_multi_sequence r single cats_done per_category category
    cats_rest e :
  evaluates_to SINGLE_SEQUENCE single →
  categories MULTI_SEQUENCE = cats_done ++ category :: cats_rest →
  Forall2
    (λ category results,
       Forall2 (λ id result,
                  value (evaluated MULTI_SEQUENCE category id) = Ok result)
         (sequence_ids MULTI_SEQUENCE) results)
    cats_done per_category →
  value (evaluated MULTI_SEQUENCE category None) = Raise e →
  value (main r) = Raise e ∧
  trace (main r) =
    task_trace SINGLE_SEQUENCE [] (zip (categories SINGLE_SEQUENCE) single)
    ++ task_trace MULTI_SEQUENCE [] (zip cats_done per_category)
    ++ trace (evaluated MULTI_SEQUENCE category None).
Proof.
  intros Hsingle Hsplit Hcats Hfails. unfold main, main_tasks.
  cbn [for_in]. rewrite run_bind, run_bind.
  destruct (main_task_run _ _ [] r Hsingle) as [r1 ->].
  cbn [value rng_after trace]. rewrite run_bind.
  destruct (main_task_fails MULTI_SEQUENCE _ _ _ cats_rest [] [] None [] e
              (odict_setitem [] SINGLE_SEQUENCE (concat single)) r1 Hsplit
              Hcats eq_refl (Forall2_nil_2 _ _ _) Hfails) as [r' ->].
  by cbn [value rng_after trace].
Qed.

(** X11. Without CO3D_DATASET_ROOT in the environment, and with a category
    to evaluate, main fails in its first call: it raises KeyError for that
    name right after the first seeding and prints nothing. *)
Theorem main_without_dataset_root r :
  environ !! "CO3D_DATASET_ROOT" = None →
  CO3D_CATEGORIES ≠ [] →
  value (main r) = Raise (KeyError "CO3D_DATASET_ROOT") ∧
  trace (main r) = [torch_manual_seed 42].
Proof.
  intros Henv Hcats. unfold main, main_tasks. cbn [for_in].
  rewrite run_bind, run_bind.
  destruct CO3D_CATEGORIES as [|category cats_rest] eqn:Hlist; [done|].
  assert (Hrun : evaluated SINGLE_SEQUENCE category (Some 0) =
                 {| value := Raise (KeyError "CO3D_DATASET_ROOT");
                    rng_after := manual_seed 42;
                    trace := [torch_manual_seed 42] |}).
  { unfold evaluated. by rewrite evaluate_run, Henv. }
  destruct (main_task_fails SINGLE_SEQUENCE [] [] category (take 19 cats_rest)
              [] [] (Some 0) [Some 1] (KeyError "CO3D_DATASET_ROOT") [] r)
    as [r' ->].
  - simpl. by rewrite Hlist.
  - constructor.
  - done.
  - constructor.
  - by rewrite Hrun.
  - cbn [value rng_after trace]. by rewrite Hrun.
Qed.

(** X12. With no category at all, main makes no call and returns, having
    computed and printed, for the single-sequence task and then for the
    multi-sequence task, the aggregate of an empty list of results. *)
Theorem main_without_categories r :
  CO3D_CATEGORIES = [] →
  value (main r) = Ok () ∧
  trace (main r) =
    aggregate_report SINGLE_SEQUENCE [] ++ aggregate_report MULTI_SEQUENCE [].
Proof.
  intros Hcats.
  destruct (main_run r [] []) as [r' ->].
  - unfold evaluates_to. simpl. rewrite Hcats. constructor.
  - unfold evaluates_to. simpl. rewrite Hcats. constructor.
  - simpl. by rewrite Hcats.
Qed.
End MainFailures.

(** ** Further properties of the snapshot test *)

Section TestDataSourceMore.
Variable Config : Type.
Variable get_default_args_ImplicitronDataSource : Config.
Variable OmegaConf_to_yaml : Config → bool → string.
Variable tests_dir : string.

(** X14. A run with DEBUG on leaves a file system on which the test passes
    with DEBUG off, and on which a second run with DEBUG on changes nothing;
    the run touches no file but the golden one. *)
Theorem test_one_after_debug_run (files : gmap string string) :
  let path := (tests_dir +:+ "/implicitron/data") +:+ "/data_source.yaml" in
  let regenerated :=
    (test_one_under Config get_default_args_ImplicitronDataSource
       OmegaConf_to_yaml tests_dir true files).2 in
  test_one Config get_default_args_ImplicitronDataSource OmegaConf_to_yaml
    tests_dir regenerated = (Ok (), regenerated) ∧
  test_one_under Config get_default_args_ImplicitronDataSource
    OmegaConf_to_yaml tests_dir true regenerated = (Ok (), regenerated) ∧
  ∀ other, other ≠ path → regenerated !! other = files !! other.
Proof.
  intros path regenerated.
  assert (Hregenerated : regenerated =
            <[path := OmegaConf_to_yaml get_default_args_ImplicitronDataSource
                        false]> files).
  { unfold regenerated, test_one_under, DATA_DIR. fold path.
    rewrite lookup_insert_eq. by rewrite decide_True. }
  rewrite Hregenerated. unfold test_one, test_one_under, DEBUG, DATA_DIR.
  fold path. rewrite insert_insert_eq, !lookup_insert_eq.
  rewrite decide_True by done. split_and!; [done..|].
  intros other Hother. by rewrite lookup_insert_ne.
Qed.
End TestDataSourceMore.

(** ** The further statements at work on small worlds *)

Section OnTheScenarios.
Import Scenario.

Lemma evaluate_without_dataset_root_witness :
  value (@evaluate_dbir_for_category (externals ∅ ["apple"])
           (library ∅ ["apple"]) "apple" MULTI_SEQUENCE default_bg_color None
           16 None (start ∅ ["apple"]))
    = Raise (KeyError "CO3D_DATASET_ROOT").
Proof.
  rewrite (@evaluate_without_dataset_root (externals ∅ ["apple"])
             (library ∅ ["apple"]) "apple" MULTI_SEQUENCE default_bg_color
             None 16 None (start ∅ ["apple"])); reflexivity.
Defined.

Lemma main_stops_in_single_sequence_witness :
  value (@main (externals configured ["apple"; "empty"; "banana"])
           (library configured ["apple"; "empty"; "banana"])
           (start configured ["apple"; "empty"; "banana"]))
    = Raise (IndexError "list index out of range").
Proof.
  destruct (@main_stops_in_single_sequence
              (externals configured ["apple"; "empty"; "banana"])
              (library configured ["apple"; "empty"; "banana"])
              (start configured ["apple"; "empty"; "banana"])
              ["apple"] [[[45; 47]; [45; 47]]] "empty" ["banana"]
              [] [] (Some 0) [Some 1]
              (IndexError "list index out of range")) as [Hvalue _];
    [reflexivity | repeat constructor | reflexivity | constructor
    | reflexivity | exact Hvalue].
Defined.

Lemma main_stops_in_multi_sequence_witness :
  value (@main (externals configured ["apple"; "single_only"])
           (library configured ["apple"; "single_only"])
           (start configured ["apple"; "single_only"]))
    = Raise (ValueError "must have a test dataset.").
Proof.
  destruct (@main_stops_in_multi_sequence
              (externals configured ["apple"; "single_only"])
              (library configured ["apple"; "single_only"])
              (start configured ["apple"; "single_only"])
              [[[45; 47]; [45; 47]]; [[45; 47]; [45; 47]]]
              ["apple"] [[[44; 46]]] "single_only" []
              (ValueError "must have a test dataset.")) as [Hvalue _];
    [repeat constructor | reflexivity | repeat constructor | reflexivity
    | exact Hvalue].
Defined.

Lemma main_without_dataset_root_witness :
  trace (@main (externals ∅ ["apple"]) (library ∅ ["apple"])
           (start ∅ ["apple"]))
    = [torch_manual_seed 42].
Proof.
  destruct (@main_without_dataset_root (externals ∅ ["apple"])
              (library ∅ ["apple"]) (start ∅ ["apple"])) as [_ Htrace];
    [reflexivity | discriminate | exact Htrace].
Defined.

Lemma main_without_categories_witness :
  value (@main (externals configured []) (library configured [])
           (start configured [])) = Ok ().
Proof.
  destruct (@main_without_categories (externals configured [])
              (library configured []) (start configured [])) as [Hvalue _];
    [reflexivity | exact Hvalue].
Defined.
End OnTheScenarios.

Section OnTheSampleAgain.
Import Sample.

Lemma evaluate_takes_batches_in_order_witness :
  moved_batches
    (trace (evaluate_dbir_for_category "banana" MULTI_SEQUENCE
              default_bg_color None 16 None start))
    = batches ++ [collate frames].
Proof.
  destruct (evaluate_takes_batches_in_order "banana" MULTI_SEQUENCE
              default_bg_color None 16 None start) as (_ & _ & _ & Hall).
  apply Hall. reflexivity.
Defined.
End OnTheSampleAgain.
